(** * Demucs vocal separation service: a model of backend/app.py

    The Flask handlers [separate_vocals] and [analyze_vocals] are embedded as
    programs of a small state-and-exception monad.  The state is the part of
    the filesystem the handlers touch together with a trace of their effects;
    everything the operating system, the uploaded file and the external
    Demucs process decide is collected in an environment record. *)

From Stdlib Require Import ZArith Lia Ascii String.
From stdpp Require Import base option list gmap strings.

Set Warnings "-register-all".

Local Open Scope string_scope.
Local Open Scope Z_scope.
Local Open Scope list_scope.

(** ** Python string operations used by the handlers *)

Module PyStr.

(** [s.startswith(p)] *)
Fixpoint startswith (s p : string) {struct p} : bool :=
  match p, s with
  | EmptyString, _ => true
  | String _ _, EmptyString => false
  | String a p', String b s' => Ascii.eqb a b && startswith s' p'
  end.

(** [s.endswith(suffix)]: some tail of [s] is [suffix]. *)
Fixpoint endswith (s suffix : string) : bool :=
  String.eqb s suffix ||
  match s with
  | EmptyString => false
  | String _ s' => endswith s' suffix
  end.

(** [needle in hay] *)
Fixpoint contains (needle hay : string) : bool :=
  startswith hay needle ||
  match hay with
  | EmptyString => false
  | String _ hay' => contains needle hay'
  end.

(** [str.lower] on one character.  Only the letters A-Z are folded: no
    character outside ASCII folds to a letter of the word the handlers look
    for, so the folding of the other characters is not observable here. *)
Definition lower_ascii (c : ascii) : ascii :=
  let n := N_of_ascii c in
  if ((65 <=? n) && (n <=? 90))%N then ascii_of_N (n + 32) else c.

Fixpoint lower (s : string) : string :=
  match s with
  | EmptyString => EmptyString
  | String c s' => String (lower_ascii c) (lower s')
  end.

(** [os.path.join(a, b)] of posixpath, for two arguments. *)
Definition join (a b : string) : string :=
  if startswith b "/" then b
  else if String.eqb a "" || endswith a "/" then a +:+ b
  else a +:+ "/" +:+ b.

(** [' '.join(parts)] *)
Definition unwords (parts : list string) : string := String.concat " " parts.

End PyStr.

(** ** The filesystem as the handlers see it *)

(** A node is a regular file with its size in bytes or a directory with its
    entries in the order [os.scandir] reports them. *)
Inductive tree : Type :=
| File (size : Z)
| Dir (entries : list (string * tree)).

(** Names of the sub-directories and of the other entries of a listing, each
    in listing order, as [os.walk] splits them. *)
Definition dirnames (es : list (string * tree)) : list string :=
  omap (fun e => match e.2 with Dir _ => Some e.1 | File _ => None end) es.

Definition filenames (es : list (string * tree)) : list string :=
  omap (fun e => match e.2 with File _ => Some e.1 | Dir _ => None end) es.

(** [os.walk(top)], top-down: the triple of [top] first, then the walk of each
    sub-directory in listing order. *)
Fixpoint walk_tree (top : string) (t : tree) : list (string * list string * list string) :=
  match t with
  | File _ => []
  | Dir es =>
      (top, dirnames es, filenames es) ::
      flat_map (fun '(n, c) => walk_tree (PyStr.join top n) c) es
  end.

(** Every path of a tree rooted at [top], with the node found there. *)
Fixpoint nodes (top : string) (t : tree) : list (string * tree) :=
  (top, t) ::
  match t with
  | File _ => []
  | Dir es => flat_map (fun '(n, c) => nodes (PyStr.join top n) c) es
  end.

(** A path is found either as a tracked root or inside the tree of one. *)
Definition all_nodes (f : gmap string tree) : list (string * tree) :=
  flat_map (fun '(k, t) => nodes k t) (map_to_list f).

Definition resolve (f : gmap string tree) (p : string) : option tree :=
  match f !! p with
  | Some t => Some t
  | None => snd <$> List.find (fun n => String.eqb n.1 p) (all_nodes f)
  end.

(** [os.path.exists] *)
Definition exists_in (f : gmap string tree) (p : string) : bool :=
  match resolve f p with Some _ => true | None => false end.

(** [os.walk(top)]: nothing is yielded when [top] is not a directory. *)
Definition walk_in (f : gmap string tree) (top : string)
  : list (string * list string * list string) :=
  match resolve f top with
  | Some t => walk_tree top t
  | None => []
  end.

(** [p] is [d] itself or lies below it. *)
Definition dir_prefix (d : string) : string :=
  if PyStr.endswith d "/" then d else d +:+ "/".

Definition under (d p : string) : bool :=
  String.eqb p d || PyStr.startswith p (dir_prefix d).

(** What is left of the tree rooted at [top] once everything under [d] is
    removed. *)
Fixpoint prune (d top : string) (t : tree) : tree :=
  match t with
  | File n => File n
  | Dir es =>
      Dir (flat_map (fun '(n, c) =>
                       if under d (PyStr.join top n) then []
                       else [(n, prune d (PyStr.join top n) c)]) es)
  end.

Definition remove_under (d : string) (f : gmap string tree) : gmap string tree :=
  map_imap (fun k t => if under d k then None else Some (prune d k t)) f.

(** ** Effects: state, exceptions, trace *)

Inductive level : Type := INFO | WARNING | ERROR.

(** A log message: the literal text of the f-string and its interpolated
    values, kept apart. *)
Inductive frag : Type :=
| Text (s : string)
| Arg (s : string)
| ArgZ (n : Z)
| ArgList (l : list string).

Inductive event : Type :=
| EvMkdtemp (dir : string)
| EvSave (path : string)
| EvRun (cmd : list string) (timeout : Z)
| EvRmtree (dir : string)
| EvLog (lvl : level) (msg : list frag).

Record Sys : Type := MkSys { fs : gmap string tree; trace : list event }.

Definition emit (ev : event) (s : Sys) : Sys :=
  {| fs := fs s; trace := trace s ++ [ev] |}.

Definition with_fs (f : gmap string tree) (s : Sys) : Sys :=
  {| fs := f; trace := trace s |}.

(** [subprocess.TimeoutExpired] is told apart from every other [Exception];
    both carry the text [str(e)] gives. *)
Inductive exn : Type :=
| TimeoutExpired (msg : string)
| Exception (msg : string).

Definition str_exn (e : exn) : string :=
  match e with TimeoutExpired m => m | Exception m => m end.

Inductive outcome (A : Type) : Type :=
| Ret (a : A)
| Raise (e : exn).
Arguments Ret {A} a.
Arguments Raise {A} e.

Definition M (A : Type) : Type := Sys -> outcome A * Sys.

#[global] Instance M_ret : MRet M := fun A a s => (Ret a, s).

#[global] Instance M_bind : MBind M := fun A B k c s =>
  match c s with
  | (Ret a, s') => k a s'
  | (Raise e, s') => (Raise e, s')
  end.

(** [try: body except Exception as e: handler(e)] *)
Definition try_except {A} (body : M A) (handler : exn -> M A) : M A := fun s =>
  match body s with
  | (Ret a, s') => (Ret a, s')
  | (Raise e, s') => handler e s'
  end.

Definition raise {A} (e : exn) : M A := fun s => (Raise e, s).

Definition log (lvl : level) (msg : list frag) : M unit := fun s =>
  (Ret tt, emit (EvLog lvl msg) s).

Definition path_exists (p : string) : M bool := fun s =>
  (Ret (exists_in (fs s) p), s).

(** [os.path.getsize]: the size of a file, the block a directory occupies,
    [OSError] for a path that is not there. *)
Definition getsize (p : string) : M Z := fun s =>
  match resolve (fs s) p with
  | Some (File n) => (Ret n, s)
  | Some (Dir _) => (Ret 4096, s)
  | None => (Raise (Exception ("[Errno 2] No such file or directory: " +:+ p)), s)
  end.

Definition os_walk (top : string) : M (list (string * list string * list string)) :=
  fun s => (Ret (walk_in (fs s) top), s).

(** ** Requests, responses and the environment of one request *)

(** An uploaded file of [request.files]. *)
Record FileStorage : Type := { filename : string; content_length : Z }.

(** [request.files] is a multi-dict: an ordered list of fields, the first
    field of a name being the one [request.files[name]] returns. *)
Record Request : Type := { files : list (string * FileStorage) }.

Fixpoint files_get (key : string) (l : list (string * FileStorage)) : option FileStorage :=
  match l with
  | [] => None
  | (k, v) :: l' => if String.eqb k key then Some v else files_get key l'
  end.

(** JSON values the handlers emit.  A number is kept as its count of
    hundredths, which is what [round(x, 2)] leaves of it. *)
Inductive json : Type :=
| JStr (s : string)
| JBool (b : bool)
| JHundredths (n : Z).

Inductive payload : Type :=
| JsonBody (fields : list (string * json))
| FileBody (path mimetype : string) (as_attachment : bool) (download_name : string).

Record Response : Type := MkResponse {
  status : Z;
  body : payload;
  call_on_close : list (M unit)
}.

(** [jsonify(obj), code] *)
Definition jsonify (fields : list (string * json)) (code : Z) : Response :=
  {| status := code; body := JsonBody fields; call_on_close := [] |}.

Inductive RunOutcome : Type :=
| Completed (returncode : Z) (stdout stderr : string)
| TimedOut (msg : string)
| LaunchFailed (msg : string).

Record CompletedProcess : Type := {
  returncode : Z;
  proc_stdout : string;
  proc_stderr : string
}.

(** Everything one request leaves to its surroundings. *)
Record Env : Type := {
  tempdir : string;                       (* tempfile.gettempdir() *)
  rnd_in : string;                        (* random part of the first mkdtemp name *)
  rnd_out : string;                       (* random part of the second one *)
  save_outcome : option string;           (* file.save: None, or the text of its exception *)
  run_outcome : RunOutcome;               (* how the Demucs process ends *)
  produced : list (string * tree);        (* what it leaves in its output root *)
  rmtree_outcome : string -> option string; (* shutil.rmtree: None, or its exception *)
  send_outcome : option string            (* send_file: None, or its exception *)
}.

Definition DEMUCS_MODEL : string := "htdemucs_ft".
Definition MAX_FILE_SIZE : Z := 50 * 1024 * 1024.

(** [round(size / (1024 * 1024), 2)], in hundredths of a megabyte.  The
    quotient by a power of two is exact, and [round] rounds the exact value to
    the nearest hundredth, ties to the even one. *)
Definition round2_mb (size : Z) : Z :=
  let q := (size * 100) / (1024 * 1024) in
  let r := (size * 100) mod (1024 * 1024) in
  if 2 * r <? 1024 * 1024 then q
  else if 1024 * 1024 <? 2 * r then q + 1
  else if Z.even q then q else q + 1.

(** Python truthiness of a value that is [None] or a string. *)
Definition truthy (o : option string) : bool :=
  match o with
  | Some s => negb (String.eqb s "")
  | None => false
  end.

(** The root the tool writes to: the argument after [-o]. *)
Fixpoint output_root (cmd : list string) : option string :=
  match cmd with
  | flag :: rest =>
      if String.eqb flag "-o" then head rest else output_root rest
  | [] => None
  end.

Section Handlers.

Variable E : Env.

(** [tempfile.mkdtemp()]: a new empty directory under the temp root. *)
Definition mkdtemp (rnd : string) : M string := fun s =>
  let d := PyStr.join (tempdir E) ("tmp" +:+ rnd) in
  (Ret d, emit (EvMkdtemp d) (with_fs (<[d := Dir []]> (fs s)) s)).

(** [file.save(dst)] *)
Definition save (file : FileStorage) (dst : string) : M unit := fun s =>
  match save_outcome E with
  | Some msg => (Raise (Exception msg), s)
  | None =>
      (Ret tt, emit (EvSave dst) (with_fs (<[dst := File (content_length file)]> (fs s)) s))
  end.

(** [shutil.rmtree(path)] *)
Definition rmtree (path : string) : M unit := fun s =>
  match rmtree_outcome E path with
  | Some msg => (Raise (Exception msg), emit (EvRmtree path) s)
  | None => (Ret tt, emit (EvRmtree path) (with_fs (remove_under path (fs s)) s))
  end.

(** [subprocess.run(cmd, capture_output=True, text=True, timeout=t)]: a
    process that was started leaves its files whether it ends or is killed. *)
Definition subprocess_run (cmd : list string) (timeout : Z) : M CompletedProcess := fun s =>
  let wrote :=
    match output_root cmd with
    | Some o => with_fs (<[o := Dir (produced E)]> (fs s)) s
    | None => s
    end in
  match run_outcome E with
  | Completed rc out err =>
      (Ret {| returncode := rc; proc_stdout := out; proc_stderr := err |},
       emit (EvRun cmd timeout) wrote)
  | TimedOut msg => (Raise (TimeoutExpired msg), emit (EvRun cmd timeout) wrote)
  | LaunchFailed msg => (Raise (Exception msg), emit (EvRun cmd timeout) s)
  end.

(** [send_file(path, mimetype=..., as_attachment=True, download_name=...)] *)
Definition send_file (path mimetype download_name : string) : M Response := fun s =>
  match send_outcome E with
  | Some msg => (Raise (Exception msg), s)
  | None =>
      (Ret {| status := 200;
              body := FileBody path mimetype true download_name;
              call_on_close := [] |}, s)
  end.

(** ** The source, function by function *)

Definition cleanup_temp_files (folder_path : string) : M unit :=
  try_except
    (there ← path_exists folder_path;
     if there : bool then rmtree folder_path else mret tt)
    (fun e =>
       log WARNING [Text "Failed to cleanup "; Arg folder_path; Text ": "; Arg (str_exn e)]).

Definition health_check : Response :=
  jsonify [("status", JStr "healthy");
           ("service", JStr "demucs-vocal-separation");
           ("model", JStr DEMUCS_MODEL)] 200.

Definition demucs_cmd (output_dir input_path : string) : list string :=
  ["python"; "-m"; "demucs.separate";
   "-n"; DEMUCS_MODEL;
   "-o"; output_dir;
   "--filename"; "{track}/{stem}.{ext}";
   "--mp3";
   "--mp3-bitrate"; "192";
   input_path].

(** The test of line 118 of app.py on one file name. *)
Definition is_vocal_name (file_name : string) : bool :=
  PyStr.contains "vocals" (PyStr.lower file_name) &&
  (PyStr.endswith file_name ".mp3" || PyStr.endswith file_name ".wav").

(** The test of the fallback loop on one path. *)
Definition is_audio (f : string) : bool :=
  PyStr.endswith f ".mp3" || PyStr.endswith f ".wav".

(** Inner loop of [separate_vocals]: [for file_name in files], leaving at the
    first match. *)
Fixpoint scan_files (root : string) (names : list string)
    (all_files : list string) (vocal_file : option string)
  : M (list string * option string) :=
  match names with
  | [] => mret (all_files, vocal_file)
  | file_name :: rest =>
      let full_path := PyStr.join root file_name in
      let all_files := all_files ++ [full_path] in
      log INFO [Text "Found file: "; Arg full_path] ;;
      if is_vocal_name file_name then
        log INFO [Text "Found vocal file: "; Arg full_path] ;;
        mret (all_files, Some full_path)
      else scan_files root rest all_files vocal_file
  end.

(** Outer loop: [for root, dirs, files in os.walk(output_dir)], leaving once
    [vocal_file] is truthy. *)
Fixpoint scan_walk (triples : list (string * list string * list string))
    (all_files : list string) (vocal_file : option string)
  : M (list string * option string) :=
  match triples with
  | [] => mret (all_files, vocal_file)
  | (root, dirs, names) :: rest =>
      log INFO [Text "Directory: "; Arg root] ;;
      log INFO [Text "Subdirs: "; ArgList dirs] ;;
      log INFO [Text "Files: "; ArgList names] ;;
      r ← scan_files root names all_files vocal_file;
      if truthy r.2 then mret r else scan_walk rest r.1 r.2
  end.

(** Fallback loop: [for f in all_files], leaving at the first audio file. *)
Fixpoint fallback (all_files : list string) (vocal_file : option string)
  : M (option string) :=
  match all_files with
  | [] => mret vocal_file
  | f :: rest =>
      if is_audio f then
        log INFO [Text "Using fallback audio file: "; Arg f] ;;
        mret (Some f)
      else fallback rest vocal_file
  end.

Definition separate_vocals (request : Request) : M Response :=
  match files_get "audio" (files request) with
  | None => mret (jsonify [("error", JStr "No audio file provided")] 400)
  | Some file =>
  if String.eqb (filename file) "" then
    mret (jsonify [("error", JStr "No file selected")] 400)
  else
    input_dir ← mkdtemp (rnd_in E);
    output_dir ← mkdtemp (rnd_out E);
    try_except
      (let input_path := PyStr.join input_dir "input_audio.wav" in
       save file input_path ;;
       log INFO [Text "Processing audio file: "; Arg (filename file)] ;;
       size ← getsize input_path;
       log INFO [Text "File size: "; ArgZ size; Text " bytes"] ;;
       let cmd := demucs_cmd output_dir input_path in
       log INFO [Text "Running Demucs: "; Arg (PyStr.unwords cmd)] ;;
       result ← subprocess_run cmd 600;
       if negb (returncode result =? 0) then
         log ERROR [Text "Demucs failed: "; Arg (proc_stderr result)] ;;
         mret (jsonify [("error", JStr "Vocal separation failed");
                        ("details", JStr (proc_stderr result))] 500)
       else
         log INFO [Text "Searching for vocal files in: "; Arg output_dir] ;;
         triples ← os_walk output_dir;
         r ← scan_walk triples [] None;
         let all_files := r.1 in
         vocal_file ←
           (if negb (truthy r.2) then
              log ERROR [Text "No vocal file found. All files created: "; ArgList all_files] ;;
              fallback all_files r.2
            else mret r.2);
         let not_found : M Response :=
           log ERROR [Text "Vocal stem file not found. Searched in: "; Arg output_dir] ;;
           log ERROR [Text "All files found: "; ArgList all_files] ;;
           mret (jsonify [("error", JStr "Vocal stem extraction failed")] 500) in
         match (if truthy vocal_file then vocal_file else None) with
         | None => not_found
         | Some path =>
             there ← path_exists path;
             if negb there then not_found
             else
               log INFO [Text "Vocal separation successful: "; Arg path] ;;
               vsize ← getsize path;
               log INFO [Text "Vocal file size: "; ArgZ vsize; Text " bytes"] ;;
               response ← send_file path "audio/mpeg"
                            ("vocals_" +:+ filename file +:+ ".mp3");
               let cleanup : M unit :=
                 cleanup_temp_files input_dir ;;
                 cleanup_temp_files output_dir in
               mret {| status := status response;
                       body := body response;
                       call_on_close := call_on_close response ++ [cleanup] |}
         end)
      (fun e =>
         match e with
         | TimeoutExpired _ =>
             log ERROR [Text "Demucs processing timeout"] ;;
             cleanup_temp_files input_dir ;;
             cleanup_temp_files output_dir ;;
             mret (jsonify [("error", JStr "Processing timeout - file too large")] 408)
         | Exception _ =>
             log ERROR [Text "Unexpected error: "; Arg (str_exn e)] ;;
             cleanup_temp_files input_dir ;;
             cleanup_temp_files output_dir ;;
             mret (jsonify [("error", JStr "Internal server error");
                            ("details", JStr (str_exn e))] 500)
         end)
  end.

(** Loops of [analyze_vocals]: every file of every directory is looked at, a
    later match overwriting an earlier one. *)
Fixpoint pick_files (root : string) (names : list string)
    (found : option string * option string) : option string * option string :=
  match names with
  | [] => found
  | file_name :: rest =>
      pick_files root rest
        (if PyStr.contains "vocals.mp3" file_name then
           (Some (PyStr.join root file_name), found.2)
         else if PyStr.contains "no_vocals.mp3" file_name then
           (found.1, Some (PyStr.join root file_name))
         else found)
  end.

Fixpoint pick_walk (triples : list (string * list string * list string))
    (found : option string * option string) : option string * option string :=
  match triples with
  | [] => found
  | (root, _, names) :: rest => pick_walk rest (pick_files root names found)
  end.

(** [os.path.getsize(f) if f else 0] *)
Definition size_or_zero (f : option string) : M Z :=
  match (if truthy f then f else None) with
  | Some path => getsize path
  | None => mret 0
  end.

Definition analyze_vocals (request : Request) : M Response :=
  match files_get "audio" (files request) with
  | None => mret (jsonify [("error", JStr "No audio file provided")] 400)
  | Some file =>
  if String.eqb (filename file) "" then
    mret (jsonify [("error", JStr "No file selected")] 400)
  else
    input_dir ← mkdtemp (rnd_in E);
    output_dir ← mkdtemp (rnd_out E);
    try_except
      (let input_path := PyStr.join input_dir "input_audio.wav" in
       save file input_path ;;
       input_size ← getsize input_path;
       let cmd := demucs_cmd output_dir input_path in
       result ← subprocess_run cmd 600;
       if negb (returncode result =? 0) then
         mret (jsonify [("error", JStr "Vocal separation failed")] 500)
       else
         triples ← os_walk output_dir;
         let found := pick_walk triples (None, None) in
         let vocal_file := found.1 in
         let accompaniment_file := found.2 in
         vocal_size ← size_or_zero vocal_file;
         accompaniment_size ← size_or_zero accompaniment_file;
         let analysis_result :=
           [("success", JBool true);
            ("model", JStr DEMUCS_MODEL);
            ("input_file", JStr (filename file));
            ("input_size_mb", JHundredths (round2_mb input_size));
            ("vocal_size_mb", JHundredths (round2_mb vocal_size));
            ("accompaniment_size_mb", JHundredths (round2_mb accompaniment_size));
            ("vocal_extracted", JBool (bool_decide (is_Some vocal_file)));
            ("processing_time", JStr "completed")] in
         cleanup_temp_files input_dir ;;
         cleanup_temp_files output_dir ;;
         mret (jsonify analysis_result 200))
      (fun e =>
         cleanup_temp_files input_dir ;;
         cleanup_temp_files output_dir ;;
         mret (jsonify [("error", JStr "Analysis failed");
                        ("details", JStr (str_exn e))] 500))
  end.

(** The server sends the response a handler returned and then closes it,
    which runs the callbacks registered with [call_on_close]; only then is the
    request complete. *)
Fixpoint run_callbacks (cbs : list (M unit)) : M unit :=
  match cbs with
  | [] => mret tt
  | cb :: rest => cb ;; run_callbacks rest
  end.

Definition serve (handler : Request -> M Response) (request : Request) : M Response :=
  response ← handler request;
  run_callbacks (call_on_close response) ;;
  mret response.

End Handlers.

(** Number of [shutil.rmtree] calls on [dir] in a trace. *)
Fixpoint releases (dir : string) (tr : list event) : nat :=
  match tr with
  | [] => 0%nat
  | EvRmtree d :: tr' => ((if String.eqb d dir then 1 else 0) + releases dir tr')%nat
  | _ :: tr' => releases dir tr'
  end.

(** ** Concrete runs *)

Definition sys0 : Sys := {| fs := ∅; trace := [] |}.

Definition song : FileStorage := {| filename := "song.wav"; content_length := 5242880 |}.

Definition upload : Request := {| files := [("audio", song)] |}.

Definition env_of (r : RunOutcome) (out : list (string * tree)) : Env :=
  {| tempdir := "/tmp"; rnd_in := "a1"; rnd_out := "b2";
     save_outcome := None; run_outcome := r; produced := out;
     rmtree_outcome := fun _ => None; send_outcome := None |}.

(** ** Notions the statements are written with *)

(** Between [s] and [s'] the filesystem was left alone and nothing was
    released. *)
Definition quiet (s s' : Sys) : Prop :=
  fs s' = fs s /\ forall d, releases d (trace s') = releases d (trace s).

(** Paths of the files of one directory, in listing order. *)
Definition paths_of (root : string) (names : list string) : list string :=
  map (PyStr.join root) names.

(** Paths of all files of a walk, in traversal order. *)
Fixpoint all_paths (triples : list (string * list string * list string)) : list string :=
  match triples with
  | [] => []
  | (root, _, names) :: rest => paths_of root names ++ all_paths rest
  end.

(** Path of the first file of a directory whose name passes the test. *)
Fixpoint first_vocal_in (root : string) (names : list string) : option string :=
  match names with
  | [] => None
  | n :: rest => if is_vocal_name n then Some (PyStr.join root n) else first_vocal_in root rest
  end.

(** Path of the first file of a walk whose name passes the test. *)
Fixpoint first_vocal (triples : list (string * list string * list string)) : option string :=
  match triples with
  | [] => None
  | (root, _, names) :: rest =>
      match first_vocal_in root names with
      | Some p => Some p
      | None => first_vocal rest
      end
  end.

(** The two ways an upload is turned away, with the message of each. *)
Inductive rejected (request : Request) : string -> Prop :=
| no_audio_field :
    ~ In "audio" (map fst (files request)) ->
    rejected request "No audio file provided"
| no_file_selected file :
    files_get "audio" (files request) = Some file ->
    filename file = "" ->
    rejected request "No file selected".

Definition input_dir (E : Env) : string := PyStr.join (tempdir E) ("tmp" +:+ rnd_in E).
Definition output_dir (E : Env) : string := PyStr.join (tempdir E) ("tmp" +:+ rnd_out E).
Definition input_path (E : Env) : string := PyStr.join (input_dir E) "input_audio.wav".

(** The filesystem once the upload is staged, and once the tool has run. *)
Definition staged_fs (E : Env) (file : FileStorage) (f : gmap string tree) : gmap string tree :=
  <[input_path E := File (content_length file)]>
    (<[output_dir E := Dir []]> (<[input_dir E := Dir []]> f)).

Definition ran_fs (E : Env) (file : FileStorage) (f : gmap string tree) : gmap string tree :=
  <[output_dir E := Dir (produced E)]> (staged_fs E file f).

(** What [os.walk(output_dir)] yields after the tool has run. *)
Definition walked (E : Env) : list (string * list string * list string) :=
  walk_tree (output_dir E) (Dir (produced E)).

(** The file [separate_vocals] settles on: the first one the name test
    accepts, or else the first path with an audio ending. *)
Definition located (triples : list (string * list string * list string)) : option string :=
  match first_vocal triples with
  | Some p => Some p
  | None => List.find is_audio (all_paths triples)
  end.

(** The workspace is still there and no [rmtree] was called between [s] and
    [s']. *)
Definition workspace_kept (E : Env) (s s' : Sys) : Prop :=
  exists_in (fs s') (input_dir E) = true /\
  exists_in (fs s') (output_dir E) = true /\
  forall d, releases d (trace s') = releases d (trace s).

(** Neither directory of the workspace is there any more. *)
Definition workspace_released (E : Env) (s' : Sys) : Prop :=
  exists_in (fs s') (input_dir E) = false /\
  exists_in (fs s') (output_dir E) = false.

(** The files of a walk in traversal order, each with the directory it was
    reported in. *)
Fixpoint walk_files (triples : list (string * list string * list string))
  : list (string * string) :=
  match triples with
  | [] => []
  | (root, _, names) :: rest => map (pair root) names ++ walk_files rest
  end.

Definition path_of (rn : string * string) : string := PyStr.join rn.1 rn.2.

(** Status and body of the response a handler returned. *)
Definition answer (x : outcome Response * Sys) : option (Z * payload) :=
  match x.1 with
  | Ret r => Some (status r, body r)
  | Raise _ => None
  end.

Definition two_stems : list (string * tree) :=
  [("track", Dir [("no_vocals.mp3", File 3565158); ("vocals.mp3", File 2202010)])].

Definition upper_case_stem : list (string * tree) := [("Vocals.WAV", File 2202010)].

Definition mixed_case_stem : list (string * tree) :=
  [("mix.txt", File 10); ("track", Dir [("My_VOCALS.mp3", File 2202010)])].

Definition drifted_names : list (string * tree) :=
  [("readme.txt", File 10); ("track", Dir [("voice.mp3", File 2202010); ("rest.wav", File 7)])].

Definition one_stem : list (string * tree) := [("track", Dir [("vocals.mp3", File 2202010)])].

Definition no_stems : list (string * tree) := [("track", Dir [("drums.mp3", File 7)])].

(** The ways a request leaves [separate_vocals]. *)
Inductive route : Type :=
| Turned_away (msg : string)
| Crashed (msg : string)
| Timed_out (msg : string)
| Tool_failed (stderr : string)
| Not_found
| Streamed (path : string).

(** Which way a request takes, read off the upload and the environment. *)
Definition separate_route (E : Env) (request : Request) : route :=
  match files_get "audio" (files request) with
  | None => Turned_away "No audio file provided"
  | Some file =>
      if String.eqb (filename file) "" then Turned_away "No file selected"
      else
        match save_outcome E with
        | Some msg => Crashed msg
        | None =>
            match run_outcome E with
            | LaunchFailed msg => Crashed msg
            | TimedOut msg => Timed_out msg
            | Completed rc _ err =>
                if rc =? 0 then
                  match located (walked E) with
                  | None => Not_found
                  | Some path =>
                      match send_outcome E with
                      | Some msg => Crashed msg
                      | None => Streamed path
                      end
                  end
                else Tool_failed err
            end
        end
  end.

(** File name of the upload, empty when there is none. *)
Definition upload_name (request : Request) : string :=
  match files_get "audio" (files request) with
  | Some file => filename file
  | None => ""
  end.

(** Status and body [separate_vocals] gives on each way. *)
Definition separate_reply (name : string) (r : route) : Z * payload :=
  match r with
  | Turned_away msg => (400, JsonBody [("error", JStr msg)])
  | Crashed msg =>
      (500, JsonBody [("error", JStr "Internal server error"); ("details", JStr msg)])
  | Timed_out _ => (408, JsonBody [("error", JStr "Processing timeout - file too large")])
  | Tool_failed err =>
      (500, JsonBody [("error", JStr "Vocal separation failed"); ("details", JStr err)])
  | Not_found => (500, JsonBody [("error", JStr "Vocal stem extraction failed")])
  | Streamed path =>
      (200, FileBody path "audio/mpeg" true ("vocals_" +:+ name +:+ ".mp3"))
  end.

(** The ways a request leaves [analyze_vocals]. *)
Inductive summary_route : Type :=
| Refused (msg : string)
| Failed (msg : string)
| Separation_failed
| Summarised.

Definition analyze_route (E : Env) (request : Request) : summary_route :=
  match files_get "audio" (files request) with
  | None => Refused "No audio file provided"
  | Some file =>
      if String.eqb (filename file) "" then Refused "No file selected"
      else
        match save_outcome E with
        | Some msg => Failed msg
        | None =>
            match run_outcome E with
            | LaunchFailed msg => Failed msg
            | TimedOut msg => Failed msg
            | Completed rc _ _ => if rc =? 0 then Summarised else Separation_failed
            end
        end
  end.

(** The last file of a walk whose name contains "vocals.mp3". *)
Definition last_vocals_mp3 (triples : list (string * list string * list string))
  : option (string * string) :=
  last (filter (fun rn => PyStr.contains "vocals.mp3" rn.2 = true) (walk_files triples)).

(** Status and body [analyze_vocals] gives on each way; [vocal_size] is the
    size [os.path.getsize] reports for the vocal file. *)
Definition analyze_reply (E : Env) (request : Request) (vocal_size : Z) (r : summary_route)
  : Z * payload :=
  match r with
  | Refused msg => (400, JsonBody [("error", JStr msg)])
  | Failed msg => (500, JsonBody [("error", JStr "Analysis failed"); ("details", JStr msg)])
  | Separation_failed => (500, JsonBody [("error", JStr "Vocal separation failed")])
  | Summarised =>
      (200,
       JsonBody
         [("success", JBool true);
          ("model", JStr DEMUCS_MODEL);
          ("input_file", JStr (upload_name request));
          ("input_size_mb",
           JHundredths
             (round2_mb
                (match files_get "audio" (files request) with
                 | Some file => content_length file
                 | None => 0
                 end)));
          ("vocal_size_mb", JHundredths (round2_mb vocal_size));
          ("accompaniment_size_mb", JHundredths 0);
          ("vocal_extracted", JBool (bool_decide (is_Some (last_vocals_mp3 (walked E)))));
          ("processing_time", JStr "completed")])
  end.

(** Between [s] and [s'] each directory of the workspace saw exactly one
    [rmtree] call. *)
Definition released_once (E : Env) (s s' : Sys) : Prop :=
  releases (input_dir E) (trace s') = S (releases (input_dir E) (trace s)) /\
  releases (output_dir E) (trace s') = S (releases (output_dir E) (trace s)).

(** What a handler leaves behind when its [except] branch has run: the
    workspace is gone if [rmtree] did not fail, and each directory saw one
    [rmtree] call if neither lies inside the other. *)
Definition cleaned (E : Env) (s s' : Sys) : Prop :=
  (rmtree_outcome E (input_dir E) = None ->
   rmtree_outcome E (output_dir E) = None ->
   workspace_released E s') /\
  (under (input_dir E) (output_dir E) = false -> released_once E s s').

(** ** Facts about the string operations *)

Module PyStrFacts.
Import PyStr.

Lemma startswith_app (a b : string) : startswith (a +:+ b) a = true.
Proof.
  induction a as [|c a IH]; simpl; [reflexivity|].
  rewrite Ascii.eqb_refl. exact IH.
Qed.

Lemma startswith_contains_tail (a b s : string) :
  startswith s (a +:+ b) = true -> contains b s = true.
Proof.
  revert s. induction a as [|c a IH]; intros s H.
  - change ("" +:+ b) with b in H.
    destruct s; simpl; rewrite H; reflexivity.
  - change (String c a +:+ b) with (String c (a +:+ b)) in H.
    destruct s as [|c' s]; [discriminate|]. simpl in H.
    apply andb_prop in H as [_ H]. apply IH in H.
    simpl. rewrite H. apply orb_true_r.
Qed.

(** A string that contains [a ++ b] contains [b]. *)
Lemma contains_tail (a b s : string) :
  contains (a +:+ b) s = true -> contains b s = true.
Proof.
  induction s as [|c s IH]; simpl; intros H.
  - apply orb_prop in H as [H|H]; [|discriminate].
    apply (startswith_contains_tail a b "") in H. exact H.
  - apply orb_prop in H as [H|H].
    + apply (startswith_contains_tail a b (String c s)) in H. exact H.
    + rewrite (IH H). apply orb_true_r.
Qed.

Lemma join_empty (a b : string) : join a b = "" -> a = "" /\ b = "".
Proof.
  unfold join. intros H.
  destruct (startswith b "/") eqn:Hb; [subst b; discriminate Hb|].
  destruct (_ || _) in H; destruct a; simpl in H; try discriminate H;
    destruct b; try discriminate H; auto.
Qed.

Lemma join_nonempty_l (a b : string) : a <> "" -> join a b <> "".
Proof. intros Ha H. apply join_empty in H as [H _]. contradiction. Qed.

End PyStrFacts.

Example walk_tree_two_levels :
  walk_tree "/o" (Dir [("a.txt", File 1); ("track", Dir [("vocals.mp3", File 2)])])
  = [("/o", ["track"], ["a.txt"]); ("/o/track", [], ["vocals.mp3"])].
Proof. reflexivity. Qed.

(** ** Facts about traces and states *)

Lemma releases_app (d : string) (a b : list event) :
  releases d (a ++ b) = (releases d a + releases d b)%nat.
Proof.
  induction a as [|ev a IH]; simpl; [reflexivity|].
  destruct ev; simpl; rewrite ?IH; lia.
Qed.

Lemma quiet_refl (s : Sys) : quiet s s.
Proof. split; reflexivity. Qed.

Lemma quiet_trans (s1 s2 s3 : Sys) : quiet s1 s2 -> quiet s2 s3 -> quiet s1 s3.
Proof.
  intros [F1 R1] [F2 R2]. split; [congruence|].
  intros d. rewrite R2. apply R1.
Qed.

Lemma quiet_log (lvl : level) (msg : list frag) (s : Sys) :
  quiet s (emit (EvLog lvl msg) s).
Proof.
  split; [reflexivity|]. intros d. simpl. rewrite releases_app. simpl. lia.
Qed.

Create HintDb quiet.
#[global] Hint Resolve quiet_refl quiet_log : quiet.

(** ** Running the monad *)

Lemma bind_run {A B} (c : M A) (k : A -> M B) (s : Sys) :
  (c ≫= k) s = match c s with
               | (Ret a, s') => k a s'
               | (Raise e, s') => (Raise e, s')
               end.
Proof. reflexivity. Qed.

Lemma ret_run {A} (a : A) (s : Sys) : (mret a : M A) s = (Ret a, s).
Proof. reflexivity. Qed.

Lemma log_run (lvl : level) (msg : list frag) (s : Sys) :
  log lvl msg s = (Ret tt, emit (EvLog lvl msg) s).
Proof. reflexivity. Qed.

Ltac mrun := cbv beta iota delta [mbind M_bind mret M_ret log].

(** ** The loops of [separate_vocals] without their logging *)

Section LoopFacts.

Variable E : Env.

Lemma scan_files_no_match root names all_files vocal_file s :
  first_vocal_in root names = None ->
  exists s', scan_files root names all_files vocal_file s
             = (Ret (all_files ++ paths_of root names, vocal_file), s')
             /\ quiet s s'.
Proof.
  revert all_files s. induction names as [|n names IH]; intros all_files s H; simpl in *.
  - exists s. rewrite app_nil_r. auto with quiet.
  - destruct (is_vocal_name n) eqn:Hn; [discriminate|].
    mrun.
    destruct (IH (all_files ++ [PyStr.join root n]) (emit (EvLog INFO [Text "Found file: "; Arg (PyStr.join root n)]) s) H)
      as (s' & Hs' & Hq).
    exists s'. rewrite Hs', <- app_assoc. split; [reflexivity|].
    eapply quiet_trans; [apply quiet_log|exact Hq].
Qed.

Lemma scan_files_match root names all_files vocal_file s p :
  first_vocal_in root names = Some p ->
  exists s' seen, scan_files root names all_files vocal_file s
             = (Ret (all_files ++ seen, Some p), s')
             /\ quiet s s'.
Proof.
  revert all_files s. induction names as [|n names IH]; intros all_files s H; simpl in *.
  - discriminate.
  - destruct (is_vocal_name n) eqn:Hn; mrun.
    + injection H as <-. eexists _, [_]. split; [reflexivity|].
      eapply quiet_trans; apply quiet_log.
    + destruct (IH (all_files ++ [PyStr.join root n]) (emit (EvLog INFO [Text "Found file: "; Arg (PyStr.join root n)]) s) H)
        as (s' & seen & Hs' & Hq).
      exists s', (PyStr.join root n :: seen). rewrite Hs', <- app_assoc.
      split; [reflexivity|].
      eapply quiet_trans; [apply quiet_log|exact Hq].
Qed.

Lemma first_vocal_in_sound root names p :
  first_vocal_in root names = Some p ->
  exists n, In n names /\ is_vocal_name n = true /\ p = PyStr.join root n.
Proof.
  induction names as [|n names IH]; simpl; [discriminate|].
  destruct (is_vocal_name n) eqn:Hn.
  - intros [= <-]. exists n. auto.
  - intros H. destruct (IH H) as (m & Hm & Hv & ->). exists m. auto.
Qed.

Lemma first_vocal_in_truthy root names p :
  root <> "" -> first_vocal_in root names = Some p -> truthy (Some p) = true.
Proof.
  intros Hroot H. apply first_vocal_in_sound in H as (n & _ & _ & ->).
  simpl. destruct (String.eqb_spec (PyStr.join root n) ""); [|reflexivity].
  exfalso. eapply PyStrFacts.join_nonempty_l; eauto.
Qed.

(** The two loops stop at the first file whose name passes the test, as long
    as no directory of the walk has the empty path. *)
Lemma scan_walk_match triples all_files s p :
  Forall (fun t => t.1.1 <> "") triples ->
  first_vocal triples = Some p ->
  exists s' seen, scan_walk triples all_files None s
                  = (Ret (all_files ++ seen, Some p), s')
                  /\ quiet s s'.
Proof.
  intros Hroots. revert all_files s.
  induction Hroots as [|[[root dirs] names] rest Hroot _ IH]; intros all_files s H;
    simpl in H; [discriminate|].
  simpl in Hroot. simpl. mrun.
  destruct (first_vocal_in root names) as [q|] eqn:Hq.
  - injection H as ->.
    destruct (scan_files_match root names all_files None
                (emit (EvLog INFO [Text "Files: "; ArgList names])
                   (emit (EvLog INFO [Text "Subdirs: "; ArgList dirs])
                      (emit (EvLog INFO [Text "Directory: "; Arg root]) s))) p Hq)
      as (s' & seen & Hs' & Hquiet).
    rewrite Hs'. cbv beta iota. cbn [snd].
    rewrite (first_vocal_in_truthy root names p Hroot Hq). mrun.
    exists s', seen. split; [reflexivity|].
    do 3 (eapply quiet_trans; [apply quiet_log|]). exact Hquiet.
  - destruct (scan_files_no_match root names all_files None
                (emit (EvLog INFO [Text "Files: "; ArgList names])
                   (emit (EvLog INFO [Text "Subdirs: "; ArgList dirs])
                      (emit (EvLog INFO [Text "Directory: "; Arg root]) s))) Hq)
      as (s' & Hs' & Hquiet).
    rewrite Hs'. cbv beta iota. cbn [snd fst truthy].
    destruct (IH (all_files ++ paths_of root names) s' H) as (s'' & seen & Hs'' & Hquiet').
    exists s'', (paths_of root names ++ seen). rewrite Hs'', <- app_assoc.
    split; [reflexivity|].
    do 3 (eapply quiet_trans; [apply quiet_log|]).
    eapply quiet_trans; eassumption.
Qed.

(** Without such a file the loops run to the end and list every file. *)
Lemma scan_walk_no_match triples all_files s :
  first_vocal triples = None ->
  exists s', scan_walk triples all_files None s
             = (Ret (all_files ++ all_paths triples, None), s')
             /\ quiet s s'.
Proof.
  revert all_files s.
  induction triples as [|[[root dirs] names] rest IH]; intros all_files s H; simpl in *.
  - exists s. rewrite app_nil_r. auto with quiet.
  - destruct (first_vocal_in root names) as [q|] eqn:Hq; [discriminate|]. mrun.
    destruct (scan_files_no_match root names all_files None
                (emit (EvLog INFO [Text "Files: "; ArgList names])
                   (emit (EvLog INFO [Text "Subdirs: "; ArgList dirs])
                      (emit (EvLog INFO [Text "Directory: "; Arg root]) s))) Hq)
      as (s' & Hs' & Hquiet).
    rewrite Hs'. cbv beta iota. cbn [snd fst truthy].
    destruct (IH (all_files ++ paths_of root names) s' H) as (s'' & Hs'' & Hquiet').
    exists s''. rewrite Hs'', <- app_assoc. split; [reflexivity|].
    do 3 (eapply quiet_trans; [apply quiet_log|]).
    eapply quiet_trans; eassumption.
Qed.

(** The fallback loop returns the first path with an audio ending. *)
Lemma fallback_run all_files vocal_file s :
  exists s', fallback all_files vocal_file s
             = (Ret (match List.find is_audio all_files with
                     | Some f => Some f
                     | None => vocal_file
                     end), s')
             /\ quiet s s'.
Proof.
  induction all_files as [|f rest IH]; simpl.
  - exists s. auto with quiet.
  - destruct (is_audio f); [|exact IH]. mrun.
    eexists. split; [reflexivity|]. apply quiet_log.
Qed.

End LoopFacts.

(** ** Facts about the filesystem model *)

(** Induction on trees that reaches the entries of a directory. *)
Lemma tree_ind' (P : tree -> Prop) :
  (forall n, P (File n)) ->
  (forall es, Forall (fun e => P e.2) es -> P (Dir es)) ->
  forall t, P t.
Proof.
  intros HF HD. fix IH 1. intros [n|es]; [apply HF|]. apply HD.
  induction es as [|[n c] es IHes]; constructor; [apply IH|exact IHes].
Qed.

Section FsFacts.

Implicit Types (f : gmap string tree) (t : tree) (p q d top : string).

Lemma nodes_head top t : In top (map fst (nodes top t)).
Proof. destruct t; simpl; auto. Qed.

Lemma in_all_nodes f k t q :
  f !! k = Some t -> In q (map fst (nodes k t)) -> In q (map fst (all_nodes f)).
Proof.
  intros Hk Hq. apply in_map_iff in Hq as ([q' t'] & <- & Hq).
  apply in_map_iff. exists (q', t'). split; [reflexivity|].
  unfold all_nodes. apply in_flat_map. exists (k, t). split; [|exact Hq].
  apply list_elem_of_In, elem_of_map_to_list. exact Hk.
Qed.

Lemma all_nodes_inv f q :
  In q (map fst (all_nodes f)) ->
  exists k t, f !! k = Some t /\ In q (map fst (nodes k t)).
Proof.
  intros Hq. apply in_map_iff in Hq as ([q' t'] & <- & Hq).
  unfold all_nodes in Hq. apply in_flat_map in Hq as ([k t] & Hk & Hq).
  exists k, t. split.
  - apply elem_of_map_to_list, list_elem_of_In. exact Hk.
  - apply in_map_iff. exists (q', t'). auto.
Qed.

Lemma resolve_key f p t : f !! p = Some t -> resolve f p = Some t.
Proof. intros H. unfold resolve. rewrite H. reflexivity. Qed.

Lemma resolve_insert f p t : resolve (<[p := t]> f) p = Some t.
Proof. apply resolve_key, lookup_insert_eq. Qed.

Lemma resolve_None f p : resolve f p = None <-> ~ In p (map fst (all_nodes f)).
Proof.
  unfold resolve. split.
  - destruct (f !! p) eqn:Hp; [discriminate|].
    destruct (List.find _ _) as [x|] eqn:Hfind; [discriminate|]. intros _ Hin.
    apply in_map_iff in Hin as (x & <- & Hx).
    pose proof (find_none _ _ Hfind x Hx) as Hne. simpl in Hne.
    rewrite String.eqb_refl in Hne. discriminate.
  - intros Hnot. destruct (f !! p) eqn:Hp.
    + exfalso. apply Hnot. eapply in_all_nodes; [exact Hp|apply nodes_head].
    + destruct (List.find _ _) as [x|] eqn:Hfind; [|reflexivity].
      exfalso. apply find_some in Hfind as [Hx Heq]. apply Hnot.
      apply String.eqb_eq in Heq as <-. apply in_map. exact Hx.
Qed.

Lemma exists_in_true f p : exists_in f p = true <-> In p (map fst (all_nodes f)).
Proof.
  unfold exists_in. destruct (resolve f p) eqn:H.
  - split; [intros _|reflexivity].
    destruct (in_dec String.string_dec p (map fst (all_nodes f))) as [Hin|Hnot]; [exact Hin|].
    apply resolve_None in Hnot. congruence.
  - apply resolve_None in H. split; [discriminate|contradiction].
Qed.

Lemma exists_key f p : is_Some (f !! p) -> exists_in f p = true.
Proof. intros [t Ht]. unfold exists_in. rewrite (resolve_key _ _ _ Ht). reflexivity. Qed.

Lemma all_paths_app (a b : list (string * list string * list string)) :
  all_paths (a ++ b) = all_paths a ++ all_paths b.
Proof.
  induction a as [|[[root dirs] names] a IH]; simpl; [reflexivity|].
  rewrite IH, app_assoc. reflexivity.
Qed.

Lemma in_all_paths_flat_map {A} (g : A -> list (string * list string * list string))
    (l : list A) p :
  In p (all_paths (flat_map g l)) -> exists x, In x l /\ In p (all_paths (g x)).
Proof.
  induction l as [|x l IH]; simpl; [tauto|].
  rewrite all_paths_app, in_app_iff. intros [H|H].
  - exists x. auto.
  - destruct (IH H) as (y & Hy & Hp). exists y. auto.
Qed.

Lemma in_filenames (es : list (string * tree)) n :
  In n (filenames es) -> exists sz, In (n, File sz) es.
Proof.
  intros H. apply list_elem_of_In, list_elem_of_omap in H as ([m c] & Hin & Heq).
  apply list_elem_of_In in Hin. destruct c as [sz|]; simpl in Heq; [|discriminate].
  injection Heq as ->. exists sz. exact Hin.
Qed.

(** Every file [os.walk] reports is a node of the tree walked. *)
Lemma walk_paths_in_nodes t :
  forall top p, In p (all_paths (walk_tree top t)) -> In p (map fst (nodes top t)).
Proof.
  induction t as [n|es IH] using tree_ind'; intros top p; simpl; [tauto|].
  rewrite in_app_iff. intros [Hp|Hp]; right; apply in_map_iff.
  - apply in_map_iff in Hp as (n & <- & Hn).
    apply in_filenames in Hn as (sz & Hn).
    exists (PyStr.join top n, File sz). split; [reflexivity|].
    apply in_flat_map. exists (n, File sz). split; [exact Hn|]. simpl. auto.
  - apply in_all_paths_flat_map in Hp as ([n c] & Hin & Hp).
    rewrite List.Forall_forall in IH. apply (IH _ Hin) in Hp.
    apply in_map_iff in Hp as (x & Hx1 & Hx2).
    exists x. split; [exact Hx1|]. apply in_flat_map. exists (n, c). auto.
Qed.

Lemma walked_exists f top t p :
  f !! top = Some t -> In p (all_paths (walk_tree top t)) -> exists_in f p = true.
Proof.
  intros Htop Hp. apply exists_in_true.
  eapply in_all_nodes; [exact Htop|]. apply walk_paths_in_nodes. exact Hp.
Qed.

(** No directory of a walk has the empty path unless the walk starts there. *)
Lemma walk_roots t :
  forall top, top <> "" -> Forall (fun tr => tr.1.1 <> "") (walk_tree top t).
Proof.
  induction t as [n|es IH] using tree_ind'; intros top Htop; simpl; constructor.
  - exact Htop.
  - apply List.Forall_flat_map. rewrite List.Forall_forall in IH |- *.
    intros [n c] Hin. apply (IH _ Hin). apply PyStrFacts.join_nonempty_l. exact Htop.
Qed.

Lemma under_refl d : under d d = true.
Proof. unfold under. rewrite String.eqb_refl. reflexivity. Qed.

(** Pruning only removes nodes, and leaves none under [d]. *)
Lemma prune_nodes d t :
  forall k q, under d k = false ->
    In q (map fst (nodes k (prune d k t))) ->
    In q (map fst (nodes k t)) /\ under d q = false.
Proof.
  induction t as [n|es IH] using tree_ind'; intros k q Hk; simpl.
  - intros [<-|[]]. auto.
  - intros [<-|Hq]; [auto|].
    apply in_map_iff in Hq as ([q' t'] & <- & Hq).
    apply in_flat_map in Hq as ([n' c'] & Hin' & Hq).
    apply in_flat_map in Hin' as ([n c] & Hin & Hkeep).
    destruct (under d (PyStr.join k n)) eqn:Hu; [destruct Hkeep|].
    destruct Hkeep as [[= <- <-]|[]].
    rewrite List.Forall_forall in IH.
    destruct (IH _ Hin (PyStr.join k n) q' Hu) as [Hin_orig Hfree].
    { apply in_map_iff. exists (q', t'). auto. }
    split; [|exact Hfree]. right.
    apply in_map_iff in Hin_orig as (x & Hx1 & Hx2).
    apply in_map_iff. exists x. split; [exact Hx1|].
    apply in_flat_map. exists (n, c). auto.
Qed.

Lemma remove_under_nodes d f q :
  In q (map fst (all_nodes (remove_under d f))) ->
  In q (map fst (all_nodes f)) /\ under d q = false.
Proof.
  intros Hq. apply all_nodes_inv in Hq as (k & t' & Hk & Hq).
  unfold remove_under in Hk. rewrite map_lookup_imap in Hk.
  destruct (f !! k) as [t|] eqn:Hfk; simpl in Hk; [|discriminate].
  destruct (under d k) eqn:Hu; [discriminate|]. injection Hk as <-.
  destruct (prune_nodes d t k q Hu Hq) as [Hin Hfree].
  split; [|exact Hfree]. eapply in_all_nodes; eauto.
Qed.

(** After [remove_under d] nothing under [d] exists, and nothing that did
    not exist before does. *)
Lemma removed_gone d f p : under d p = true -> exists_in (remove_under d f) p = false.
Proof.
  intros Hu. destruct (exists_in _ p) eqn:H; [|reflexivity].
  apply exists_in_true, remove_under_nodes in H as [_ H]. congruence.
Qed.

Lemma removed_stays d f p : exists_in f p = false -> exists_in (remove_under d f) p = false.
Proof.
  intros Hno. destruct (exists_in (remove_under d f) p) eqn:H; [|reflexivity].
  apply exists_in_true, remove_under_nodes in H as [H _].
  apply exists_in_true in H. congruence.
Qed.

End FsFacts.

(** ** Releasing a workspace directory *)

Ltac mexec :=
  cbv beta iota zeta delta
    [mbind M_bind mret M_ret log raise try_except path_exists getsize os_walk
     mkdtemp save rmtree subprocess_run send_file size_or_zero];
  cbn [fs trace emit with_fs].

Section Cleanup.

Variable E : Env.

(** A directory that is not there is left alone. *)
Lemma cleanup_absent d s :
  exists_in (fs s) d = false -> cleanup_temp_files E d s = (Ret tt, s).
Proof. intros H. unfold cleanup_temp_files. mexec. rewrite H. reflexivity. Qed.

(** A directory that is there is removed with one [rmtree] call, unless
    [rmtree] fails, which only leaves a warning in the log. *)
Lemma cleanup_present d s :
  exists_in (fs s) d = true ->
  cleanup_temp_files E d s =
    match rmtree_outcome E d with
    | None => (Ret tt, emit (EvRmtree d) (with_fs (remove_under d (fs s)) s))
    | Some msg =>
        (Ret tt,
         emit (EvLog WARNING [Text "Failed to cleanup "; Arg d; Text ": "; Arg msg])
           (emit (EvRmtree d) s))
    end.
Proof.
  intros H. unfold cleanup_temp_files. mexec. rewrite H.
  destruct (rmtree_outcome E d); reflexivity.
Qed.

Lemma cleanup_total d s : exists s', cleanup_temp_files E d s = (Ret tt, s').
Proof.
  destruct (exists_in (fs s) d) eqn:H.
  - rewrite (cleanup_present d s H). destruct (rmtree_outcome E d); eauto.
  - rewrite (cleanup_absent d s H). eauto.
Qed.

(** When [rmtree] does not fail on [d], [d] is gone afterwards and whatever
    was gone before stays gone. *)
Lemma cleanup_releases d s :
  rmtree_outcome E d = None ->
  exists s', cleanup_temp_files E d s = (Ret tt, s')
             /\ exists_in (fs s') d = false
             /\ forall p, exists_in (fs s) p = false -> exists_in (fs s') p = false.
Proof.
  intros Hok. destruct (exists_in (fs s) d) eqn:H.
  - rewrite (cleanup_present d s H), Hok. eexists. split; [reflexivity|].
    cbn [fs emit with_fs]. split.
    + apply removed_gone, under_refl.
    + intros p. apply removed_stays.
  - rewrite (cleanup_absent d s H). eauto.
Qed.

End Cleanup.

(** ** Claims about [cleanup_temp_files] *)

(** C9: [cleanup_temp_files] returns normally for every path, every state of
    the filesystem and every behaviour of [rmtree], the first time and when
    called again.  A directory that is not there leaves the state as it was;
    a failing [rmtree] leaves the filesystem as it was and adds only the
    [rmtree] attempt and one warning to the trace; after a successful removal
    the directory is gone and the second call does nothing. *)
Theorem cleanup_temp_files_never_raises (E : Env) (folder_path : string) (s : Sys) :
  exists s1 s2,
    cleanup_temp_files E folder_path s = (Ret tt, s1) /\
    cleanup_temp_files E folder_path s1 = (Ret tt, s2) /\
    (exists_in (fs s) folder_path = false -> s1 = s) /\
    (forall msg,
        exists_in (fs s) folder_path = true ->
        rmtree_outcome E folder_path = Some msg ->
        fs s1 = fs s /\
        trace s1 = trace s ++
          [EvRmtree folder_path;
           EvLog WARNING [Text "Failed to cleanup "; Arg folder_path; Text ": "; Arg msg]]) /\
    (rmtree_outcome E folder_path = None ->
        exists_in (fs s1) folder_path = false /\ s2 = s1).
Proof.
  destruct (cleanup_total E folder_path s) as [s1 H1].
  destruct (cleanup_total E folder_path s1) as [s2 H2].
  exists s1, s2. split; [exact H1|]. split; [exact H2|]. split; [|split].
  - intros Habsent. rewrite (cleanup_absent E _ _ Habsent) in H1. congruence.
  - intros msg Hthere Hfail.
    rewrite (cleanup_present E _ _ Hthere), Hfail in H1. injection H1 as <-.
    split; [reflexivity|]. cbn [trace emit]. rewrite <- app_assoc. reflexivity.
  - intros Hok.
    destruct (cleanup_releases E folder_path s Hok) as (s1' & H1' & Hgone & _).
    assert (s1' = s1) as -> by congruence.
    split; [exact Hgone|].
    rewrite (cleanup_absent E _ _ Hgone) in H2. congruence.
Qed.

(** ** Claims about the two handlers *)

Lemma files_get_None (l : list (string * FileStorage)) :
  ~ In "audio" (map fst l) -> files_get "audio" l = None.
Proof.
  induction l as [|[k v] l IH]; simpl; [reflexivity|]. intros H.
  destruct (String.eqb_spec k "audio") as [->|_]; [tauto|]. apply IH. tauto.
Qed.

(** C7: a request without an [audio] field is answered 400 "No audio file
    provided", one whose audio field has an empty file name 400 "No file
    selected", by both handlers; the state is the one the request found, so
    no directory was created and nothing else was done. *)
Theorem upload_rejected_without_job (E : Env) (request : Request) (s : Sys) (msg : string) :
  rejected request msg ->
  separate_vocals E request s = (Ret (jsonify [("error", JStr msg)] 400), s) /\
  analyze_vocals E request s = (Ret (jsonify [("error", JStr msg)] 400), s).
Proof.
  intros [Hnone|file Hfile Hname]; unfold separate_vocals, analyze_vocals.
  - rewrite (files_get_None _ Hnone). split; reflexivity.
  - rewrite Hfile, Hname. split; reflexivity.
Qed.

Lemma upload_rejected_without_job_witness :
  separate_vocals (env_of (Completed 0 "" "") []) {| files := [] |} sys0
    = (Ret (jsonify [("error", JStr "No audio file provided")] 400), sys0) /\
  analyze_vocals (env_of (Completed 0 "" "") []) {| files := [] |} sys0
    = (Ret (jsonify [("error", JStr "No audio file provided")] 400), sys0).
Proof.
  apply (upload_rejected_without_job _ {| files := [] |} sys0 "No audio file provided").
  apply no_audio_field. simpl. tauto.
Defined.

(** ** Facts about the paths of one request *)

Section HandlerFacts.

Variable E : Env.

Lemma output_root_cmd o i : output_root (demucs_cmd o i) = Some o.
Proof. reflexivity. Qed.

Lemma input_dir_nonempty : input_dir E <> "".
Proof.
  unfold input_dir. intros H. apply PyStrFacts.join_empty in H as [_ H]. discriminate.
Qed.

Lemma output_dir_nonempty : output_dir E <> "".
Proof.
  unfold output_dir. intros H. apply PyStrFacts.join_empty in H as [_ H]. discriminate.
Qed.

Lemma is_Some_insert (m : gmap string tree) i j x :
  is_Some (m !! j) -> is_Some (<[i := x]> m !! j).
Proof.
  intros H. destruct (decide (i = j)) as [->|Hne].
  - rewrite lookup_insert_eq. eauto.
  - rewrite lookup_insert_ne; assumption.
Qed.

Lemma ran_fs_input_dir file f : exists_in (ran_fs E file f) (input_dir E) = true.
Proof.
  apply exists_key. unfold ran_fs, staged_fs.
  do 3 apply is_Some_insert. rewrite lookup_insert_eq. eauto.
Qed.

Lemma ran_fs_output_dir file f : exists_in (ran_fs E file f) (output_dir E) = true.
Proof. apply exists_key. unfold ran_fs. rewrite lookup_insert_eq. eauto. Qed.

Lemma ran_fs_walk file f : walk_in (ran_fs E file f) (output_dir E) = walked E.
Proof. unfold walk_in, ran_fs. rewrite resolve_insert. reflexivity. Qed.

Lemma ran_fs_walked_exists file f p :
  In p (all_paths (walked E)) -> exists_in (ran_fs E file f) p = true.
Proof.
  intros H. eapply walked_exists; [|exact H]. unfold ran_fs. apply lookup_insert_eq.
Qed.

Lemma walked_roots : Forall (fun tr => tr.1.1 <> "") (walked E).
Proof. apply walk_roots, output_dir_nonempty. Qed.

End HandlerFacts.

Lemma first_vocal_in_paths root names p :
  first_vocal_in root names = Some p -> In p (paths_of root names).
Proof.
  intros H. apply first_vocal_in_sound in H as (n & Hn & _ & ->).
  apply in_map. exact Hn.
Qed.

Lemma first_vocal_in_all_paths triples p :
  first_vocal triples = Some p -> In p (all_paths triples).
Proof.
  induction triples as [|[[root dirs] names] rest IH]; simpl; [discriminate|].
  rewrite in_app_iff. destruct (first_vocal_in root names) eqn:H.
  - intros [= <-]. left. eapply first_vocal_in_paths; eauto.
  - auto.
Qed.

Lemma all_paths_nonempty triples p :
  Forall (fun tr => tr.1.1 <> "") triples -> In p (all_paths triples) -> p <> "".
Proof.
  induction 1 as [|[[root dirs] names] rest Hroot _ IH]; simpl; [tauto|].
  rewrite in_app_iff. intros [H|H]; [|auto].
  apply in_map_iff in H as (n & <- & _). apply PyStrFacts.join_nonempty_l. exact Hroot.
Qed.

Lemma located_in_all_paths triples p : located triples = Some p -> In p (all_paths triples).
Proof.
  unfold located. destruct (first_vocal triples) eqn:H.
  - intros [= <-]. apply first_vocal_in_all_paths. exact H.
  - intros Hfind. apply find_some in Hfind as [Hin _]. exact Hin.
Qed.

Lemma truthy_nonempty p : p <> "" -> truthy (Some p) = true.
Proof. intros H. simpl. destruct (String.eqb_spec p ""); [contradiction|reflexivity]. Qed.

(** ** The paths through the handlers *)

Lemma locate_run triples s :
  Forall (fun tr => tr.1.1 <> "") triples ->
  exists s' all_files,
    scan_walk triples [] None s = (Ret (all_files, first_vocal triples), s')
    /\ quiet s s'
    /\ (first_vocal triples = None -> all_files = all_paths triples).
Proof.
  intros Hroots. destruct (first_vocal triples) as [p|] eqn:Hfirst.
  - destruct (scan_walk_match triples [] s p Hroots Hfirst) as (s' & seen & Hrun & Hq).
    exists s', ([] ++ seen). split; [exact Hrun|]. split; [exact Hq|discriminate].
  - destruct (scan_walk_no_match triples [] s Hfirst) as (s' & Hrun & Hq).
    exists s', ([] ++ all_paths triples). split; [exact Hrun|]. split; [exact Hq|reflexivity].
Qed.

Lemma releases_emit d ev s :
  releases d (trace (emit ev s)) = (releases d (trace s) + releases d [ev])%nat.
Proof. cbn [trace emit]. apply releases_app. Qed.

Ltac count_releases :=
  repeat (rewrite releases_emit; cbn [releases trace with_fs]);
  try lia.
Ltac finish_send Hthere Hsend Hfs Hrel :=
  match goal with
  | |- context [resolve (fs ?st) ?p] =>
      let Hex := fresh "Hex" in
      pose proof (Hthere st Hfs) as Hex; unfold exists_in in Hex;
      destruct (resolve (fs st) p) as [[?|?]|]; [ | |discriminate Hex];
      rewrite Hsend; cbv beta iota;
      (eexists; split; [reflexivity|]; cbn [fs emit with_fs]; split;
       [exact Hfs|intros d; count_releases; rewrite Hrel; count_releases])
  end.

Lemma separate_vocals_success E request file s path out err :
  files_get "audio" (files request) = Some file ->
  filename file <> "" ->
  save_outcome E = None ->
  run_outcome E = Completed 0 out err ->
  send_outcome E = None ->
  located (walked E) = Some path ->
  exists s',
    separate_vocals E request s =
      (Ret {| status := 200;
              body := FileBody path "audio/mpeg" true ("vocals_" +:+ filename file +:+ ".mp3");
              call_on_close :=
                [cleanup_temp_files E (input_dir E) ;; cleanup_temp_files E (output_dir E)] |},
       s')
    /\ fs s' = ran_fs E file (fs s)
    /\ forall d, releases d (trace s') = releases d (trace s).
Proof.
  intros Hfile Hname Hsave Hrun Hsend Hloc.
  unfold separate_vocals. rewrite Hfile.
  destruct (String.eqb_spec (filename file) "") as [|_]; [contradiction|].
  mexec. rewrite Hsave. cbv beta iota. cbn [fs trace emit with_fs].
  fold (input_dir E) (output_dir E). fold (input_path E).
  rewrite resolve_insert. cbv beta iota.
  rewrite output_root_cmd. rewrite Hrun. cbv beta iota.
  cbn [returncode fs trace emit with_fs negb Z.eqb].
  change (<[output_dir E:=Dir (produced E)]> _) with (ran_fs E file (fs s)).
  rewrite ran_fs_walk.
  match goal with |- context [scan_walk _ _ _ ?st] => set (s3 := st) end.
  destruct (locate_run (walked E) s3 (walked_roots E))
    as (s4 & all_files & Hscan & [Hfs4 Hrel4] & Hall).
  assert (Hfs : fs s4 = ran_fs E file (fs s)) by (rewrite Hfs4; reflexivity).
  assert (Hrel : forall d, releases d (trace s4) = releases d (trace s)).
  { intros d. rewrite Hrel4. subst s3. count_releases. }
  clearbody s3. clear Hfs4 Hrel4.
  rewrite Hscan. cbv beta iota. cbn [fst snd].
  assert (Hin : In path (all_paths (walked E))) by (apply located_in_all_paths; exact Hloc).
  assert (Htruthy : truthy (Some path) = true).
  { apply truthy_nonempty. eapply all_paths_nonempty; [apply walked_roots|exact Hin]. }
  assert (Hthere : forall s5, fs s5 = ran_fs E file (fs s) -> exists_in (fs s5) path = true).
  { intros s5 ->. apply ran_fs_walked_exists. exact Hin. }
  unfold located in Hloc. destruct (first_vocal (walked E)) as [p|] eqn:Hfirst.
  - injection Hloc as ->. rewrite Htruthy. cbn [negb]. cbv beta iota. rewrite Htruthy.
    rewrite (Hthere s4 Hfs). cbn [negb]. cbv beta iota.
    finish_send Hthere Hsend Hfs Hrel.
  - cbn [truthy negb]. cbv beta iota. rewrite (Hall eq_refl).
    match goal with |- context [fallback _ _ ?st] => set (s5 := st) end.
    destruct (fallback_run (all_paths (walked E)) None s5) as (s6 & Hfb & [Hfs6 Hrel6]).
    rewrite Hfb, Hloc. cbv beta iota. rewrite Htruthy.
    assert (Hfs' : fs s6 = ran_fs E file (fs s)) by (rewrite Hfs6; exact Hfs).
    assert (Hrel' : forall d, releases d (trace s6) = releases d (trace s)).
    { intros d. rewrite Hrel6. subst s5. count_releases. rewrite Hrel. lia. }
    clearbody s5. rewrite (Hthere s6 Hfs'). cbn [negb]. cbv beta iota.
    finish_send Hthere Hsend Hfs' Hrel'.
Qed.

Lemma cleanup_pair {A} E (x : A) s :
  exists s',
    (cleanup_temp_files E (input_dir E) ;; cleanup_temp_files E (output_dir E) ;; mret x) s
      = (Ret x, s')
    /\ (rmtree_outcome E (input_dir E) = None ->
        rmtree_outcome E (output_dir E) = None ->
        workspace_released E s').
Proof.
  destruct (cleanup_total E (input_dir E) s) as [s1 H1].
  destruct (cleanup_total E (output_dir E) s1) as [s2 H2].
  exists s2. split; [mexec; rewrite H1, H2; reflexivity|].
  intros Hin Hout.
  destruct (cleanup_releases E (input_dir E) s Hin) as (s1' & H1' & Hgone1 & _).
  assert (s1' = s1) as -> by congruence.
  destruct (cleanup_releases E (output_dir E) s1 Hout) as (s2' & H2' & Hgone2 & Hstay).
  assert (s2' = s2) as -> by congruence.
  split; [apply Hstay; exact Hgone1|exact Hgone2].
Qed.

Ltac run_cleanup E x :=
  match goal with
  | |- context [cleanup_temp_files E (input_dir E) ?st] =>
      destruct (cleanup_pair E x st) as (s_end & Hend & Hreleased);
      cbv beta iota zeta delta [mbind M_bind mret M_ret] in Hend;
      rewrite Hend; cbv beta iota
  end.

Lemma separate_vocals_not_found E request file s out err :
  files_get "audio" (files request) = Some file ->
  filename file <> "" ->
  save_outcome E = None ->
  run_outcome E = Completed 0 out err ->
  located (walked E) = None ->
  exists s',
    separate_vocals E request s =
      (Ret (jsonify [("error", JStr "Vocal stem extraction failed")] 500), s')
    /\ fs s' = ran_fs E file (fs s)
    /\ forall d, releases d (trace s') = releases d (trace s).
Proof.
  intros Hfile Hname Hsave Hrun Hloc.
  unfold separate_vocals. rewrite Hfile.
  destruct (String.eqb_spec (filename file) "") as [|_]; [contradiction|].
  mexec. rewrite Hsave. cbv beta iota. cbn [fs trace emit with_fs].
  fold (input_dir E) (output_dir E). fold (input_path E).
  rewrite resolve_insert. cbv beta iota.
  rewrite output_root_cmd. rewrite Hrun. cbv beta iota.
  cbn [returncode fs trace emit with_fs negb Z.eqb].
  change (<[output_dir E:=Dir (produced E)]> _) with (ran_fs E file (fs s)).
  rewrite ran_fs_walk.
  match goal with |- context [scan_walk _ _ _ ?st] => set (s3 := st) end.
  destruct (locate_run (walked E) s3 (walked_roots E))
    as (s4 & all_files & Hscan & [Hfs4 Hrel4] & Hall).
  assert (Hfs : fs s4 = ran_fs E file (fs s)) by (rewrite Hfs4; reflexivity).
  assert (Hrel : forall d, releases d (trace s4) = releases d (trace s)).
  { intros d. rewrite Hrel4. subst s3. count_releases. }
  clearbody s3. clear Hfs4 Hrel4.
  rewrite Hscan. cbv beta iota. cbn [fst snd].
  unfold located in Hloc. destruct (first_vocal (walked E)) as [p|] eqn:Hfirst; [discriminate|].
  cbn [truthy negb]. cbv beta iota. rewrite (Hall eq_refl).
  match goal with |- context [fallback _ _ ?st] => set (s5 := st) end.
  destruct (fallback_run (all_paths (walked E)) None s5) as (s6 & Hfb & [Hfs6 Hrel6]).
  rewrite Hfb, Hloc. cbv beta iota. cbn [truthy].
  eexists. split; [reflexivity|]. cbn [fs emit with_fs]. split.
  - rewrite Hfs6. exact Hfs.
  - intros d. count_releases. rewrite Hrel6. subst s5. count_releases. rewrite Hrel. lia.
Qed.

Lemma separate_vocals_tool_failure E request file s rc out err :
  files_get "audio" (files request) = Some file ->
  filename file <> "" ->
  save_outcome E = None ->
  run_outcome E = Completed rc out err ->
  rc <> 0 ->
  exists s',
    separate_vocals E request s =
      (Ret (jsonify [("error", JStr "Vocal separation failed"); ("details", JStr err)] 500), s')
    /\ fs s' = ran_fs E file (fs s)
    /\ forall d, releases d (trace s') = releases d (trace s).
Proof.
  intros Hfile Hname Hsave Hrun Hrc.
  unfold separate_vocals. rewrite Hfile.
  destruct (String.eqb_spec (filename file) "") as [|_]; [contradiction|].
  mexec. rewrite Hsave. cbv beta iota. cbn [fs trace emit with_fs].
  fold (input_dir E) (output_dir E). fold (input_path E).
  rewrite resolve_insert. cbv beta iota.
  rewrite output_root_cmd. rewrite Hrun. cbv beta iota.
  cbn [returncode proc_stderr fs trace emit with_fs].
  destruct (Z.eqb_spec rc 0) as [|_]; [contradiction|]. cbn [negb].
  eexists. split; [reflexivity|]. cbn [fs emit with_fs]. split; [reflexivity|].
  intros d. count_releases.
Qed.

Lemma separate_vocals_timeout E request file s msg :
  files_get "audio" (files request) = Some file ->
  filename file <> "" ->
  save_outcome E = None ->
  run_outcome E = TimedOut msg ->
  exists s',
    separate_vocals E request s =
      (Ret (jsonify [("error", JStr "Processing timeout - file too large")] 408), s')
    /\ (rmtree_outcome E (input_dir E) = None ->
        rmtree_outcome E (output_dir E) = None ->
        workspace_released E s').
Proof.
  intros Hfile Hname Hsave Hrun.
  unfold separate_vocals. rewrite Hfile.
  destruct (String.eqb_spec (filename file) "") as [|_]; [contradiction|].
  mexec. rewrite Hsave. cbv beta iota. cbn [fs trace emit with_fs].
  fold (input_dir E) (output_dir E). fold (input_path E).
  rewrite resolve_insert. cbv beta iota.
  rewrite output_root_cmd. rewrite Hrun. cbv beta iota.
  run_cleanup E (jsonify [("error", JStr "Processing timeout - file too large")] 408).
  exists s_end. split; [reflexivity|exact Hreleased].
Qed.

Lemma analyze_vocals_timeout E request file s msg :
  files_get "audio" (files request) = Some file ->
  filename file <> "" ->
  save_outcome E = None ->
  run_outcome E = TimedOut msg ->
  exists s',
    analyze_vocals E request s =
      (Ret (jsonify [("error", JStr "Analysis failed"); ("details", JStr msg)] 500), s')
    /\ (rmtree_outcome E (input_dir E) = None ->
        rmtree_outcome E (output_dir E) = None ->
        workspace_released E s').
Proof.
  intros Hfile Hname Hsave Hrun.
  unfold analyze_vocals. rewrite Hfile.
  destruct (String.eqb_spec (filename file) "") as [|_]; [contradiction|].
  mexec. rewrite Hsave. cbv beta iota. cbn [fs trace emit with_fs].
  fold (input_dir E) (output_dir E). fold (input_path E).
  rewrite resolve_insert. cbv beta iota.
  rewrite output_root_cmd. rewrite Hrun. cbv beta iota. cbn [str_exn].
  run_cleanup E (jsonify [("error", JStr "Analysis failed"); ("details", JStr msg)] 500).
  exists s_end. split; [reflexivity|exact Hreleased].
Qed.


Lemma no_vocals_is_vocals n :
  PyStr.contains "no_vocals.mp3" n = true -> PyStr.contains "vocals.mp3" n = true.
Proof. apply (PyStrFacts.contains_tail "no_" "vocals.mp3"). Qed.

(** The second branch of the loop body is never taken. *)
Lemma pick_files_snd root names found : (pick_files root names found).2 = found.2.
Proof.
  revert found. induction names as [|n names IH]; intros found; simpl; [reflexivity|].
  rewrite IH. destruct (PyStr.contains "vocals.mp3" n) eqn:Hv; [reflexivity|].
  destruct (PyStr.contains "no_vocals.mp3" n) eqn:Hn; [|reflexivity].
  apply no_vocals_is_vocals in Hn. congruence.
Qed.

Lemma pick_walk_snd triples found : (pick_walk triples found).2 = found.2.
Proof.
  revert found. induction triples as [|[[root dirs] names] rest IH]; intros found; simpl.
  - reflexivity.
  - rewrite IH. apply pick_files_snd.
Qed.

Lemma pick_files_fst root names found p :
  (pick_files root names found).1 = Some p ->
  found.1 = Some p \/ In p (paths_of root names).
Proof.
  revert found. induction names as [|n names IH]; intros found; simpl; [auto|].
  intros H. apply IH in H as [H|H]; [|auto].
  destruct (PyStr.contains "vocals.mp3" n).
  - simpl in H. injection H as <-. auto.
  - destruct (PyStr.contains "no_vocals.mp3" n); simpl in H; auto.
Qed.

Lemma pick_walk_fst triples found p :
  (pick_walk triples found).1 = Some p ->
  found.1 = Some p \/ In p (all_paths triples).
Proof.
  revert found. induction triples as [|[[root dirs] names] rest IH]; intros found; simpl; [auto|].
  intros H. rewrite in_app_iff. apply IH in H as [H|H]; [|auto].
  apply pick_files_fst in H as [H|H]; auto.
Qed.

Lemma analyze_vocals_completed E request file s out err :
  files_get "audio" (files request) = Some file ->
  filename file <> "" ->
  save_outcome E = None ->
  run_outcome E = Completed 0 out err ->
  exists s' vocal_size,
    analyze_vocals E request s =
      (Ret (jsonify
              [("success", JBool true);
               ("model", JStr DEMUCS_MODEL);
               ("input_file", JStr (filename file));
               ("input_size_mb", JHundredths (round2_mb (content_length file)));
               ("vocal_size_mb", JHundredths (round2_mb vocal_size));
               ("accompaniment_size_mb", JHundredths (round2_mb 0));
               ("vocal_extracted",
                JBool (bool_decide (is_Some (pick_walk (walked E) (None, None)).1)));
               ("processing_time", JStr "completed")] 200), s')
    /\ ((pick_walk (walked E) (None, None)).1 = None -> vocal_size = 0)
    /\ (rmtree_outcome E (input_dir E) = None ->
        rmtree_outcome E (output_dir E) = None ->
        workspace_released E s').
Proof.
  intros Hfile Hname Hsave Hrun.
  unfold analyze_vocals. rewrite Hfile.
  destruct (String.eqb_spec (filename file) "") as [|_]; [contradiction|].
  mexec. rewrite Hsave. cbv beta iota. cbn [fs trace emit with_fs].
  fold (input_dir E) (output_dir E). fold (input_path E).
  rewrite resolve_insert. cbv beta iota.
  rewrite output_root_cmd. rewrite Hrun. cbv beta iota.
  cbn [returncode fs trace emit with_fs negb Z.eqb].
  change (<[output_dir E:=Dir (produced E)]> _) with (ran_fs E file (fs s)).
  rewrite ran_fs_walk.
  rewrite (pick_walk_snd (walked E) (None, None)). cbn [snd truthy]. cbv beta iota.
  destruct (pick_walk (walked E) (None, None)).1 as [p|] eqn:Hfound.
  - apply pick_walk_fst in Hfound as [Hfound|Hin]; [discriminate|].
    rewrite truthy_nonempty
      by (eapply all_paths_nonempty; [apply walked_roots|exact Hin]).
    cbv beta iota. cbn [fs trace emit with_fs].
    pose proof (ran_fs_walked_exists E file (fs s) p Hin) as Hex. unfold exists_in in Hex.
    destruct (resolve (ran_fs E file (fs s)) p) as [[n|es]|]; [ | |discriminate];
      cbv beta iota.
    + run_cleanup E
        (jsonify
           [("success", JBool true);
            ("model", JStr DEMUCS_MODEL);
            ("input_file", JStr (filename file));
            ("input_size_mb", JHundredths (round2_mb (content_length file)));
            ("vocal_size_mb", JHundredths (round2_mb n));
            ("accompaniment_size_mb", JHundredths (round2_mb 0));
            ("vocal_extracted", JBool (bool_decide (is_Some (Some p))));
            ("processing_time", JStr "completed")] 200).
      exists s_end, n. split; [reflexivity|]. split; [discriminate|exact Hreleased].
    + run_cleanup E
        (jsonify
           [("success", JBool true);
            ("model", JStr DEMUCS_MODEL);
            ("input_file", JStr (filename file));
            ("input_size_mb", JHundredths (round2_mb (content_length file)));
            ("vocal_size_mb", JHundredths (round2_mb 4096));
            ("accompaniment_size_mb", JHundredths (round2_mb 0));
            ("vocal_extracted", JBool (bool_decide (is_Some (Some p))));
            ("processing_time", JStr "completed")] 200).
      exists s_end, 4096. split; [reflexivity|]. split; [discriminate|exact Hreleased].
  - cbn [truthy]. cbv beta iota.
    run_cleanup E
      (jsonify
         [("success", JBool true);
          ("model", JStr DEMUCS_MODEL);
          ("input_file", JStr (filename file));
          ("input_size_mb", JHundredths (round2_mb (content_length file)));
          ("vocal_size_mb", JHundredths (round2_mb 0));
          ("accompaniment_size_mb", JHundredths (round2_mb 0));
          ("vocal_extracted", JBool (bool_decide (is_Some (@None string))));
          ("processing_time", JStr "completed")] 200).
    exists s_end, 0. split; [reflexivity|]. split; [reflexivity|exact Hreleased].
Qed.

Lemma analyze_vocals_tool_failure E request file s rc out err :
  files_get "audio" (files request) = Some file ->
  filename file <> "" ->
  save_outcome E = None ->
  run_outcome E = Completed rc out err ->
  rc <> 0 ->
  exists s',
    analyze_vocals E request s =
      (Ret (jsonify [("error", JStr "Vocal separation failed")] 500), s')
    /\ fs s' = ran_fs E file (fs s)
    /\ forall d, releases d (trace s') = releases d (trace s).
Proof.
  intros Hfile Hname Hsave Hrun Hrc.
  unfold analyze_vocals. rewrite Hfile.
  destruct (String.eqb_spec (filename file) "") as [|_]; [contradiction|].
  mexec. rewrite Hsave. cbv beta iota. cbn [fs trace emit with_fs].
  fold (input_dir E) (output_dir E). fold (input_path E).
  rewrite resolve_insert. cbv beta iota.
  rewrite output_root_cmd. rewrite Hrun. cbv beta iota.
  cbn [returncode proc_stderr fs trace emit with_fs].
  destruct (Z.eqb_spec rc 0) as [|_]; [contradiction|]. cbn [negb].
  eexists. split; [reflexivity|]. cbn [fs emit with_fs]. split; [reflexivity|].
  intros d. count_releases.
Qed.

(** A response without callbacks is complete as soon as it is returned. *)
Lemma serve_plain (handler : Request -> M Response) request s r s' :
  handler request s = (Ret r, s') ->
  call_on_close r = [] ->
  serve handler request s = (Ret r, s').
Proof.
  intros Hrun Hcb. unfold serve. mexec. rewrite Hrun, Hcb. reflexivity.
Qed.

Lemma kept_of_ran_fs E file s s' :
  fs s' = ran_fs E file (fs s) ->
  (forall d, releases d (trace s') = releases d (trace s)) ->
  workspace_kept E s s'.
Proof.
  intros Hfs Hrel. unfold workspace_kept. rewrite Hfs.
  split; [apply ran_fs_input_dir|]. split; [apply ran_fs_output_dir|exact Hrel].
Qed.

(** C1 (the code does not do this): when the tool exits with a code other
    than 0, both handlers answer 500 from inside the [try] block without
    calling [cleanup_temp_files]; once the request is complete the two
    directories of the workspace are still there and no [rmtree] was called. *)
Theorem workspace_leaks_on_tool_failure
    (E : Env) (request : Request) (file : FileStorage) (s : Sys) (rc : Z) (out err : string) :
  files_get "audio" (files request) = Some file ->
  filename file <> "" ->
  save_outcome E = None ->
  run_outcome E = Completed rc out err ->
  rc <> 0 ->
  (exists s1,
     serve (separate_vocals E) request s =
       (Ret (jsonify [("error", JStr "Vocal separation failed"); ("details", JStr err)] 500), s1)
     /\ workspace_kept E s s1) /\
  (exists s2,
     serve (analyze_vocals E) request s =
       (Ret (jsonify [("error", JStr "Vocal separation failed")] 500), s2)
     /\ workspace_kept E s s2).
Proof.
  intros Hfile Hname Hsave Hrun Hrc. split.
  - destruct (separate_vocals_tool_failure E request file s rc out err
                Hfile Hname Hsave Hrun Hrc) as (s1 & H1 & Hfs & Hrel).
    exists s1. split; [apply serve_plain; [exact H1|reflexivity]|].
    eapply kept_of_ran_fs; eassumption.
  - destruct (analyze_vocals_tool_failure E request file s rc out err
                Hfile Hname Hsave Hrun Hrc) as (s2 & H2 & Hfs & Hrel).
    exists s2. split; [apply serve_plain; [exact H2|reflexivity]|].
    eapply kept_of_ran_fs; eassumption.
Qed.

Lemma workspace_leaks_on_tool_failure_witness :
  (exists s1,
     serve (separate_vocals (env_of (Completed 1 "" "boom") [])) upload sys0 =
       (Ret (jsonify [("error", JStr "Vocal separation failed"); ("details", JStr "boom")] 500), s1)
     /\ workspace_kept (env_of (Completed 1 "" "boom") []) sys0 s1) /\
  (exists s2,
     serve (analyze_vocals (env_of (Completed 1 "" "boom") [])) upload sys0 =
       (Ret (jsonify [("error", JStr "Vocal separation failed")] 500), s2)
     /\ workspace_kept (env_of (Completed 1 "" "boom") []) sys0 s2).
Proof.
  apply (workspace_leaks_on_tool_failure
           (env_of (Completed 1 "" "boom") []) upload song sys0 1 "" "boom").
  - reflexivity.
  - discriminate.
  - reflexivity.
  - reflexivity.
  - lia.
Defined.

(** The same happens on the other early return of [separate_vocals], taken
    when the tool succeeded and no artifact is found. *)
Lemma workspace_leaks_when_not_found E request file s out err :
  files_get "audio" (files request) = Some file ->
  filename file <> "" ->
  save_outcome E = None ->
  run_outcome E = Completed 0 out err ->
  located (walked E) = None ->
  exists s',
    serve (separate_vocals E) request s =
      (Ret (jsonify [("error", JStr "Vocal stem extraction failed")] 500), s')
    /\ workspace_kept E s s'.
Proof.
  intros Hfile Hname Hsave Hrun Hloc.
  destruct (separate_vocals_not_found E request file s out err
              Hfile Hname Hsave Hrun Hloc) as (s' & Hresp & Hfs & Hrel).
  exists s'. split; [apply serve_plain; [exact Hresp|reflexivity]|].
  eapply kept_of_ran_fs; eassumption.
Qed.

(** ** Which file is selected *)

Lemma find_app_first {A} (f : A -> bool) (a b : list A) :
  List.find f (a ++ b) = match List.find f a with
                         | Some x => Some x
                         | None => List.find f b
                         end.
Proof.
  induction a as [|x a IH]; simpl; [reflexivity|]. destruct (f x); [reflexivity|exact IH].
Qed.

Lemma find_of_Forall_false {A} (f : A -> bool) (l : list A) :
  Forall (fun x => f x = false) l -> List.find f l = None.
Proof. induction 1 as [|x l Hx _ IH]; simpl; [reflexivity|]. rewrite Hx. exact IH. Qed.

Lemma find_of_In {A} (f : A -> bool) (l : list A) x :
  In x l -> f x = true -> exists y, List.find f l = Some y.
Proof.
  intros Hin Hx. destruct (List.find f l) as [y|] eqn:H; [eauto|].
  pose proof (find_none _ _ H x Hin). congruence.
Qed.

Lemma first_vocal_in_find root names :
  first_vocal_in root names
  = path_of <$> List.find (fun rn => is_vocal_name rn.2) (map (pair root) names).
Proof.
  induction names as [|n names IH]; simpl; [reflexivity|].
  destruct (is_vocal_name n); [reflexivity|exact IH].
Qed.

(** [first_vocal] is the first file of the walk whose name passes the test. *)
Lemma first_vocal_find triples :
  first_vocal triples
  = path_of <$> List.find (fun rn => is_vocal_name rn.2) (walk_files triples).
Proof.
  induction triples as [|[[root dirs] names] rest IH]; simpl; [reflexivity|].
  rewrite find_app_first, first_vocal_in_find.
  destruct (List.find _ (map (pair root) names)); [reflexivity|exact IH].
Qed.

Lemma all_paths_walk_files triples : all_paths triples = map path_of (walk_files triples).
Proof.
  induction triples as [|[[root dirs] names] rest IH]; simpl; [reflexivity|].
  rewrite map_app, IH. unfold paths_of. rewrite map_map. reflexivity.
Qed.

(** C2, as stated, fails: the name test of [separate_vocals] has no
    exclusion, so with [no_vocals.mp3] listed before [vocals.mp3] the loop
    settles on [no_vocals.mp3] and the handler streams it. *)
Lemma no_vocals_selected_as_primary :
  PyStr.contains "no_vocals" "no_vocals.mp3" = true /\
  is_vocal_name "no_vocals.mp3" = true /\
  (scan_walk (walked (env_of (Completed 0 "" "") two_stems)) [] None sys0).1
    = Ret (["/tmp/tmpb2/track/no_vocals.mp3"], Some "/tmp/tmpb2/track/no_vocals.mp3") /\
  answer (separate_vocals (env_of (Completed 0 "" "") two_stems) upload sys0)
    = Some (200, FileBody "/tmp/tmpb2/track/no_vocals.mp3" "audio/mpeg" true
                   "vocals_song.wav.mp3").
Proof. repeat split; vm_compute; reflexivity. Qed.

(** C2, amended: the file the name test of [separate_vocals] settles on is a
    file of the output tree whose name contains "vocals" in any letter case
    and ends in ".mp3" or ".wav" as written; names that contain "no_vocals"
    are not set apart. *)
Theorem primary_by_name_is_vocals_audio
    (E : Env) (s s' : Sys) (all_files : list string) (p : string) :
  scan_walk (walked E) [] None s = (Ret (all_files, Some p), s') ->
  exists root n,
    In (root, n) (walk_files (walked E)) /\
    p = PyStr.join root n /\
    PyStr.contains "vocals" (PyStr.lower n) = true /\
    (PyStr.endswith n ".mp3" = true \/ PyStr.endswith n ".wav" = true).
Proof.
  intros Hrun.
  destruct (locate_run (walked E) s (walked_roots E)) as (s4 & af & Hscan & _ & _).
  assert (Hfirst : first_vocal (walked E) = Some p) by congruence.
  rewrite first_vocal_find in Hfirst.
  destruct (List.find _ (walk_files (walked E))) as [[root n]|] eqn:Hfind;
    [|discriminate Hfirst].
  injection Hfirst as <-. apply find_some in Hfind as [Hin Hname].
  exists root, n. split; [exact Hin|]. split; [reflexivity|].
  simpl in Hname. unfold is_vocal_name in Hname.
  apply andb_prop in Hname as [Hv Hext]. split; [exact Hv|].
  apply orb_prop in Hext. exact Hext.
Qed.

Lemma primary_by_name_is_vocals_audio_witness :
  exists root n,
    In (root, n) (walk_files (walked (env_of (Completed 0 "" "") two_stems))) /\
    "/tmp/tmpb2/track/no_vocals.mp3" = PyStr.join root n /\
    PyStr.contains "vocals" (PyStr.lower n) = true /\
    (PyStr.endswith n ".mp3" = true \/ PyStr.endswith n ".wav" = true).
Proof.
  eapply (primary_by_name_is_vocals_audio (env_of (Completed 0 "" "") two_stems) sys0).
  vm_compute. reflexivity.
Defined.

(** C4, as stated, fails: the name is compared in lower case but the ending
    is compared as written, in the name test and in the fallback alike, so a
    tree that holds only [Vocals.WAV] yields no artifact. *)
Lemma upper_case_extension_not_selected :
  PyStr.contains "vocals" (PyStr.lower "Vocals.WAV") = true /\
  is_vocal_name "Vocals.WAV" = false /\
  answer (separate_vocals (env_of (Completed 0 "" "") upper_case_stem) upload sys0)
    = Some (500, JsonBody [("error", JStr "Vocal stem extraction failed")]).
Proof. repeat split; vm_compute; reflexivity. Qed.

(** C4, amended: when the output tree holds a file whose name contains
    "vocals" in any letter case and ends in ".mp3" or ".wav" in lower case, the
    first such file in traversal order is the one [separate_vocals] streams. *)
Theorem first_vocals_name_is_streamed
    (E : Env) (request : Request) (file : FileStorage) (s : Sys)
    (out err root n : string) :
  files_get "audio" (files request) = Some file ->
  filename file <> "" ->
  save_outcome E = None ->
  run_outcome E = Completed 0 out err ->
  send_outcome E = None ->
  In (root, n) (walk_files (walked E)) ->
  PyStr.contains "vocals" (PyStr.lower n) = true ->
  PyStr.endswith n ".mp3" = true \/ PyStr.endswith n ".wav" = true ->
  exists first s',
    List.find (fun rn => is_vocal_name rn.2) (walk_files (walked E)) = Some first /\
    separate_vocals E request s =
      (Ret {| status := 200;
              body := FileBody (path_of first) "audio/mpeg" true
                        ("vocals_" +:+ filename file +:+ ".mp3");
              call_on_close :=
                [cleanup_temp_files E (input_dir E) ;; cleanup_temp_files E (output_dir E)] |},
       s').
Proof.
  intros Hfile Hname Hsave Hrun Hsend Hin Hvocals Hext.
  assert (Htest : is_vocal_name n = true).
  { unfold is_vocal_name. rewrite Hvocals. destruct Hext as [-> | ->]; [reflexivity|].
    simpl. apply orb_true_r. }
  destruct (find_of_In (fun rn => is_vocal_name rn.2) _ (root, n) Hin Htest) as [first Hfind].
  assert (Hloc : located (walked E) = Some (path_of first)).
  { unfold located. rewrite first_vocal_find, Hfind. reflexivity. }
  destruct (separate_vocals_success E request file s _ out err
              Hfile Hname Hsave Hrun Hsend Hloc) as (s' & Hresp & _).
  exists first, s'. split; [exact Hfind|exact Hresp].
Qed.

Lemma first_vocals_name_is_streamed_witness :
  exists first s',
    List.find (fun rn => is_vocal_name rn.2)
      (walk_files (walked (env_of (Completed 0 "" "") mixed_case_stem))) = Some first /\
    separate_vocals (env_of (Completed 0 "" "") mixed_case_stem) upload sys0 =
      (Ret {| status := 200;
              body := FileBody (path_of first) "audio/mpeg" true
                        ("vocals_" +:+ filename song +:+ ".mp3");
              call_on_close :=
                [cleanup_temp_files (env_of (Completed 0 "" "") mixed_case_stem)
                   (input_dir (env_of (Completed 0 "" "") mixed_case_stem)) ;;
                 cleanup_temp_files (env_of (Completed 0 "" "") mixed_case_stem)
                   (output_dir (env_of (Completed 0 "" "") mixed_case_stem))] |},
       s').
Proof.
  apply (first_vocals_name_is_streamed
           (env_of (Completed 0 "" "") mixed_case_stem) upload song sys0 "" ""
           "/tmp/tmpb2/track" "My_VOCALS.mp3").
  - reflexivity.
  - discriminate.
  - reflexivity.
  - reflexivity.
  - reflexivity.
  - vm_compute. right. left. reflexivity.
  - vm_compute. reflexivity.
  - left. vm_compute. reflexivity.
Defined.

(** C6: when no file name of the output tree passes the name test,
    [separate_vocals] streams the first path, in traversal order, that ends in
    ".mp3" or ".wav"; when there is no such path it answers 500 "Vocal stem
    extraction failed". *)
Theorem fallback_or_not_found
    (E : Env) (request : Request) (file : FileStorage) (s : Sys) (out err : string) :
  files_get "audio" (files request) = Some file ->
  filename file <> "" ->
  save_outcome E = None ->
  run_outcome E = Completed 0 out err ->
  send_outcome E = None ->
  Forall (fun rn => is_vocal_name rn.2 = false) (walk_files (walked E)) ->
  exists s',
    separate_vocals E request s =
      (Ret match List.find is_audio (all_paths (walked E)) with
           | Some f =>
               {| status := 200;
                  body := FileBody f "audio/mpeg" true
                            ("vocals_" +:+ filename file +:+ ".mp3");
                  call_on_close :=
                    [cleanup_temp_files E (input_dir E) ;;
                     cleanup_temp_files E (output_dir E)] |}
           | None => jsonify [("error", JStr "Vocal stem extraction failed")] 500
           end, s').
Proof.
  intros Hfile Hname Hsave Hrun Hsend Hnone.
  assert (Hfirst : first_vocal (walked E) = None).
  { rewrite first_vocal_find, (find_of_Forall_false _ _ Hnone). reflexivity. }
  destruct (List.find is_audio (all_paths (walked E))) as [f|] eqn:Hfind.
  - assert (Hloc : located (walked E) = Some f).
    { unfold located. rewrite Hfirst. exact Hfind. }
    destruct (separate_vocals_success E request file s f out err
                Hfile Hname Hsave Hrun Hsend Hloc) as (s' & Hresp & _).
    exists s'. exact Hresp.
  - assert (Hloc : located (walked E) = None).
    { unfold located. rewrite Hfirst. exact Hfind. }
    destruct (separate_vocals_not_found E request file s out err
                Hfile Hname Hsave Hrun Hloc) as (s' & Hresp & _).
    exists s'. exact Hresp.
Qed.

Lemma fallback_or_not_found_witness :
  exists s',
    separate_vocals (env_of (Completed 0 "" "") drifted_names) upload sys0 =
      (Ret {| status := 200;
              body := FileBody "/tmp/tmpb2/track/voice.mp3" "audio/mpeg" true
                        "vocals_song.wav.mp3";
              call_on_close :=
                [cleanup_temp_files (env_of (Completed 0 "" "") drifted_names)
                   (input_dir (env_of (Completed 0 "" "") drifted_names)) ;;
                 cleanup_temp_files (env_of (Completed 0 "" "") drifted_names)
                   (output_dir (env_of (Completed 0 "" "") drifted_names))] |},
       s').
Proof.
  apply (fallback_or_not_found
           (env_of (Completed 0 "" "") drifted_names) upload song sys0 "" "").
  - reflexivity.
  - discriminate.
  - reflexivity.
  - reflexivity.
  - reflexivity.
  - vm_compute. repeat constructor.
Defined.

(** Closing a response whose only callback is the cleanup of the workspace. *)
Lemma serve_with_cleanup E (handler : Request -> M Response) request s r s' :
  handler request s = (Ret r, s') ->
  call_on_close r =
    [cleanup_temp_files E (input_dir E) ;; cleanup_temp_files E (output_dir E)] ->
  exists s'',
    serve handler request s = (Ret r, s'')
    /\ (rmtree_outcome E (input_dir E) = None ->
        rmtree_outcome E (output_dir E) = None ->
        workspace_released E s'').
Proof.
  intros Hrun Hcb.
  destruct (cleanup_total E (input_dir E) s') as [s1 H1].
  destruct (cleanup_total E (output_dir E) s1) as [s2 H2].
  exists s2. split.
  - unfold serve. mexec. rewrite Hrun, Hcb. cbn [run_callbacks]. mexec.
    rewrite H1, H2. reflexivity.
  - intros Hin Hout.
    destruct (cleanup_releases E (input_dir E) s' Hin) as (s1' & H1' & Hgone1 & _).
    assert (s1' = s1) as -> by congruence.
    destruct (cleanup_releases E (output_dir E) s1 Hout) as (s2' & H2' & Hgone2 & Hstay).
    assert (s2' = s2) as -> by congruence.
    split; [apply Hstay; exact Hgone1|exact Hgone2].
Qed.

(** C8: on success [separate_vocals] returns the located file as an
    attachment of type audio/mpeg named vocals_<filename>.mp3.  When the
    handler returns, the workspace and the file are still there and no
    [rmtree] was called; the cleanup is the callback of the response, and it
    has removed both directories once the server has closed the response. *)
Theorem artifact_streamed_then_released
    (E : Env) (request : Request) (file : FileStorage) (s : Sys)
    (path out err : string) :
  files_get "audio" (files request) = Some file ->
  filename file <> "" ->
  save_outcome E = None ->
  run_outcome E = Completed 0 out err ->
  send_outcome E = None ->
  located (walked E) = Some path ->
  rmtree_outcome E (input_dir E) = None ->
  rmtree_outcome E (output_dir E) = None ->
  exists r s' s'',
    separate_vocals E request s = (Ret r, s') /\
    status r = 200 /\
    body r = FileBody path "audio/mpeg" true ("vocals_" +:+ filename file +:+ ".mp3") /\
    call_on_close r =
      [cleanup_temp_files E (input_dir E) ;; cleanup_temp_files E (output_dir E)] /\
    workspace_kept E s s' /\
    exists_in (fs s') path = true /\
    serve (separate_vocals E) request s = (Ret r, s'') /\
    workspace_released E s''.
Proof.
  intros Hfile Hname Hsave Hrun Hsend Hloc Hin Hout.
  destruct (separate_vocals_success E request file s path out err
              Hfile Hname Hsave Hrun Hsend Hloc) as (s' & Hresp & Hfs & Hrel).
  destruct (serve_with_cleanup E (separate_vocals E) request s _ s' Hresp eq_refl)
    as (s'' & Hserve & Hreleased).
  eexists _, s', s''. split; [exact Hresp|]. cbn [status body call_on_close].
  repeat split; try reflexivity.
  - rewrite Hfs. apply ran_fs_input_dir.
  - rewrite Hfs. apply ran_fs_output_dir.
  - exact Hrel.
  - rewrite Hfs. apply ran_fs_walked_exists, located_in_all_paths, Hloc.
  - exact Hserve.
  - apply Hreleased; assumption.
  - apply Hreleased; assumption.
Qed.

Lemma artifact_streamed_then_released_witness :
  exists r s' s'',
    separate_vocals (env_of (Completed 0 "" "") one_stem) upload sys0 = (Ret r, s') /\
    status r = 200 /\
    body r = FileBody "/tmp/tmpb2/track/vocals.mp3" "audio/mpeg" true
               ("vocals_" +:+ filename song +:+ ".mp3") /\
    call_on_close r =
      [cleanup_temp_files (env_of (Completed 0 "" "") one_stem)
         (input_dir (env_of (Completed 0 "" "") one_stem)) ;;
       cleanup_temp_files (env_of (Completed 0 "" "") one_stem)
         (output_dir (env_of (Completed 0 "" "") one_stem))] /\
    workspace_kept (env_of (Completed 0 "" "") one_stem) sys0 s' /\
    exists_in (fs s') "/tmp/tmpb2/track/vocals.mp3" = true /\
    serve (separate_vocals (env_of (Completed 0 "" "") one_stem)) upload sys0 = (Ret r, s'') /\
    workspace_released (env_of (Completed 0 "" "") one_stem) s''.
Proof.
  apply (artifact_streamed_then_released
           (env_of (Completed 0 "" "") one_stem) upload song sys0
           "/tmp/tmpb2/track/vocals.mp3" "" "").
  - reflexivity.
  - discriminate.
  - reflexivity.
  - reflexivity.
  - reflexivity.
  - vm_compute. reflexivity.
  - reflexivity.
  - reflexivity.
Defined.

(** C3 (the code does not do this): in the scenario of the claim the summary
    reports no accompaniment at all.  "vocals.mp3" is a substring of
    "no_vocals.mp3", so the first branch of the loop takes both files and the
    second branch is never reached; with no_vocals.mp3 listed last it is also
    the size of that file that is reported as the vocal size. *)
Theorem summary_misses_accompaniment :
  answer (analyze_vocals
            (env_of (Completed 0 "" "")
               [("track", Dir [("vocals.mp3", File 2202010);
                               ("no_vocals.mp3", File 3565158)])])
            upload sys0)
  = Some (200,
          JsonBody [("success", JBool true);
                    ("model", JStr "htdemucs_ft");
                    ("input_file", JStr "song.wav");
                    ("input_size_mb", JHundredths 500);
                    ("vocal_size_mb", JHundredths 340);
                    ("accompaniment_size_mb", JHundredths 0);
                    ("vocal_extracted", JBool true);
                    ("processing_time", JStr "completed")])
  /\
  answer (analyze_vocals (env_of (Completed 0 "" "") two_stems) upload sys0)
  = Some (200,
          JsonBody [("success", JBool true);
                    ("model", JStr "htdemucs_ft");
                    ("input_file", JStr "song.wav");
                    ("input_size_mb", JHundredths 500);
                    ("vocal_size_mb", JHundredths 210);
                    ("accompaniment_size_mb", JHundredths 0);
                    ("vocal_extracted", JBool true);
                    ("processing_time", JStr "completed")]).
Proof. split; vm_compute; reflexivity. Qed.

(** C5, as stated, fails: [analyze_vocals] has no handler of its own for
    [TimeoutExpired]; its only handler answers 500 "Analysis failed". *)
Lemma analyze_timeout_is_500 :
  answer (analyze_vocals (env_of (TimedOut "timed out after 600 seconds") []) upload sys0)
  = Some (500, JsonBody [("error", JStr "Analysis failed");
                         ("details", JStr "timed out after 600 seconds")]).
Proof. vm_compute. reflexivity. Qed.

(** C5, amended: when the tool runs into its timeout, [separate_vocals]
    answers 408 "Processing timeout - file too large" and [analyze_vocals]
    answers 500 "Analysis failed" with the text of the exception; in both the
    two directories of the workspace are gone when the handler returns. *)
Theorem timeout_answered_after_release
    (E : Env) (request : Request) (file : FileStorage) (s : Sys) (msg : string) :
  files_get "audio" (files request) = Some file ->
  filename file <> "" ->
  save_outcome E = None ->
  run_outcome E = TimedOut msg ->
  rmtree_outcome E (input_dir E) = None ->
  rmtree_outcome E (output_dir E) = None ->
  (exists s1,
     separate_vocals E request s =
       (Ret (jsonify [("error", JStr "Processing timeout - file too large")] 408), s1)
     /\ workspace_released E s1) /\
  (exists s2,
     analyze_vocals E request s =
       (Ret (jsonify [("error", JStr "Analysis failed"); ("details", JStr msg)] 500), s2)
     /\ workspace_released E s2).
Proof.
  intros Hfile Hname Hsave Hrun Hin Hout. split.
  - destruct (separate_vocals_timeout E request file s msg Hfile Hname Hsave Hrun)
      as (s1 & H1 & Hrel).
    exists s1. auto.
  - destruct (analyze_vocals_timeout E request file s msg Hfile Hname Hsave Hrun)
      as (s2 & H2 & Hrel).
    exists s2. auto.
Qed.

Lemma timeout_answered_after_release_witness :
  (exists s1,
     separate_vocals (env_of (TimedOut "late") two_stems) upload sys0 =
       (Ret (jsonify [("error", JStr "Processing timeout - file too large")] 408), s1)
     /\ workspace_released (env_of (TimedOut "late") two_stems) s1) /\
  (exists s2,
     analyze_vocals (env_of (TimedOut "late") two_stems) upload sys0 =
       (Ret (jsonify [("error", JStr "Analysis failed"); ("details", JStr "late")] 500), s2)
     /\ workspace_released (env_of (TimedOut "late") two_stems) s2).
Proof.
  apply (timeout_answered_after_release
           (env_of (TimedOut "late") two_stems) upload song sys0 "late").
  - reflexivity.
  - discriminate.
  - reflexivity.
  - reflexivity.
  - reflexivity.
  - reflexivity.
Defined.

Lemma pick_files_skip root names found :
  Forall (fun n => PyStr.contains "vocals.mp3" n = false) names ->
  pick_files root names found = found.
Proof.
  induction 1 as [|n names Hn _ IH]; simpl; [reflexivity|].
  rewrite Hn. destruct (PyStr.contains "no_vocals.mp3" n) eqn:Hno.
  - apply no_vocals_is_vocals in Hno. congruence.
  - exact IH.
Qed.

Lemma pick_walk_skip triples found :
  Forall (fun rn => PyStr.contains "vocals.mp3" rn.2 = false) (walk_files triples) ->
  pick_walk triples found = found.
Proof.
  revert found. induction triples as [|[[root dirs] names] rest IH]; intros found H; simpl in *.
  - reflexivity.
  - apply Forall_app in H as [Hnames Hrest].
    rewrite pick_files_skip; [apply IH; exact Hrest|].
    rewrite List.Forall_forall in Hnames |- *. intros n Hn.
    apply (Hnames (root, n)). apply in_map. exact Hn.
Qed.

(** C10: whenever the tool exits with code 0, [analyze_vocals] answers 200
    with success true and processing_time "completed", whatever the output
    tree holds; when no file name of the tree contains "vocals.mp3",
    vocal_extracted is false and both sizes are 0. *)
Theorem summary_succeeds_without_artifact
    (E : Env) (request : Request) (file : FileStorage) (s : Sys) (out err : string) :
  files_get "audio" (files request) = Some file ->
  filename file <> "" ->
  save_outcome E = None ->
  run_outcome E = Completed 0 out err ->
  exists s' vocal_size extracted,
    analyze_vocals E request s =
      (Ret (jsonify
              [("success", JBool true);
               ("model", JStr DEMUCS_MODEL);
               ("input_file", JStr (filename file));
               ("input_size_mb", JHundredths (round2_mb (content_length file)));
               ("vocal_size_mb", JHundredths vocal_size);
               ("accompaniment_size_mb", JHundredths 0);
               ("vocal_extracted", JBool extracted);
               ("processing_time", JStr "completed")] 200), s')
    /\ (Forall (fun rn => PyStr.contains "vocals.mp3" rn.2 = false) (walk_files (walked E)) ->
        vocal_size = 0 /\ extracted = false).
Proof.
  intros Hfile Hname Hsave Hrun.
  destruct (analyze_vocals_completed E request file s out err Hfile Hname Hsave Hrun)
    as (s' & vsize & Hresp & Hzero & _).
  exists s', (round2_mb vsize),
    (bool_decide (is_Some (pick_walk (walked E) (None, None)).1)).
  split; [exact Hresp|]. intros Hnone.
  rewrite (pick_walk_skip _ _ Hnone) in Hzero |- *. cbn [fst] in *.
  rewrite (Hzero eq_refl). split; reflexivity.
Qed.

Lemma summary_succeeds_without_artifact_witness :
  exists s' vocal_size extracted,
    analyze_vocals (env_of (Completed 0 "" "") no_stems) upload sys0 =
      (Ret (jsonify
              [("success", JBool true);
               ("model", JStr DEMUCS_MODEL);
               ("input_file", JStr (filename song));
               ("input_size_mb", JHundredths (round2_mb (content_length song)));
               ("vocal_size_mb", JHundredths vocal_size);
               ("accompaniment_size_mb", JHundredths 0);
               ("vocal_extracted", JBool extracted);
               ("processing_time", JStr "completed")] 200), s')
    /\ (Forall (fun rn => PyStr.contains "vocals.mp3" rn.2 = false)
          (walk_files (walked (env_of (Completed 0 "" "") no_stems))) ->
        vocal_size = 0 /\ extracted = false).
Proof.
  apply (summary_succeeds_without_artifact
           (env_of (Completed 0 "" "") no_stems) upload song sys0 "" "").
  - reflexivity.
  - discriminate.
  - reflexivity.
  - reflexivity.
Defined.

(** ** More about releasing *)

Lemma key_survives d (f : gmap string tree) p :
  is_Some (f !! p) -> under d p = false -> is_Some (remove_under d f !! p).
Proof.
  intros [t Ht] Hu. unfold remove_under. rewrite map_lookup_imap, Ht. simpl.
  rewrite Hu. eauto.
Qed.

Lemma not_under_neq d p : under d p = false -> String.eqb p d = false.
Proof. unfold under. intros H. apply orb_false_elim in H as [H _]. exact H. Qed.

(** Whatever [rmtree] does, [cleanup_temp_files] touches no tracked root that
    is outside the directory it was given. *)
Lemma cleanup_keeps_key E d s p :
  is_Some (fs s !! p) -> under d p = false ->
  exists s', cleanup_temp_files E d s = (Ret tt, s') /\ is_Some (fs s' !! p).
Proof.
  intros Hp Hu. destruct (exists_in (fs s) d) eqn:Hd.
  - rewrite (cleanup_present E d s Hd). destruct (rmtree_outcome E d).
    + eexists. split; [reflexivity|]. exact Hp.
    + eexists. split; [reflexivity|]. cbn [fs emit with_fs]. apply key_survives; assumption.
  - rewrite (cleanup_absent E d s Hd). eauto.
Qed.

Lemma cleanup_counts E d s :
  is_Some (fs s !! d) ->
  exists s', cleanup_temp_files E d s = (Ret tt, s')
    /\ forall d', releases d' (trace s')
                  = (releases d' (trace s) + if String.eqb d d' then 1 else 0)%nat.
Proof.
  intros Hd. rewrite (cleanup_present E d s (exists_key _ _ Hd)).
  destruct (rmtree_outcome E d); eexists; (split; [reflexivity|]); intros d';
    repeat (rewrite releases_emit; cbn [releases trace with_fs]);
    destruct (String.eqb d d'); lia.
Qed.

(** The two cleanup calls of a handler, started where both directories are
    there. *)
Lemma cleanup_pair_full {A} E (x : A) s :
  is_Some (fs s !! input_dir E) ->
  is_Some (fs s !! output_dir E) ->
  exists s',
    (cleanup_temp_files E (input_dir E) ;; cleanup_temp_files E (output_dir E) ;; mret x) s
      = (Ret x, s')
    /\ (rmtree_outcome E (input_dir E) = None ->
        rmtree_outcome E (output_dir E) = None ->
        workspace_released E s')
    /\ (under (input_dir E) (output_dir E) = false -> released_once E s s').
Proof.
  intros Hin Hout.
  destruct (cleanup_pair E x s) as (s' & Hrun & Hrel).
  exists s'. split; [exact Hrun|]. split; [exact Hrel|].
  intros Hu.
  destruct (cleanup_counts E (input_dir E) s Hin) as (s1 & H1 & Hc1).
  destruct (cleanup_keeps_key E (input_dir E) s (output_dir E) Hout Hu) as (s1' & H1' & Hout1).
  assert (s1' = s1) as -> by congruence.
  destruct (cleanup_counts E (output_dir E) s1 Hout1) as (s2 & H2 & Hc2).
  assert (s2 = s') as ->.
  { revert Hrun. mexec. rewrite H1, H2. congruence. }
  pose proof (not_under_neq _ _ Hu) as Hne.
  assert (Hne' : String.eqb (input_dir E) (output_dir E) = false)
    by (rewrite String.eqb_sym; exact Hne).
  split.
  - rewrite Hc2, Hc1, String.eqb_refl, Hne. lia.
  - rewrite Hc2, Hc1, String.eqb_refl, Hne'. lia.
Qed.

Lemma staged_keys E file (f : gmap string tree) :
  is_Some (staged_fs E file f !! input_dir E) /\ is_Some (staged_fs E file f !! output_dir E).
Proof.
  unfold staged_fs. split.
  - do 2 apply is_Some_insert. rewrite lookup_insert_eq. eauto.
  - apply is_Some_insert. rewrite lookup_insert_eq. eauto.
Qed.

Lemma ran_keys E file (f : gmap string tree) :
  is_Some (ran_fs E file f !! input_dir E) /\ is_Some (ran_fs E file f !! output_dir E).
Proof.
  unfold ran_fs. split.
  - apply is_Some_insert. apply staged_keys.
  - rewrite lookup_insert_eq. eauto.
Qed.

Lemma made_keys E (f : gmap string tree) :
  is_Some (<[output_dir E := Dir []]> (<[input_dir E := Dir []]> f) !! input_dir E) /\
  is_Some (<[output_dir E := Dir []]> (<[input_dir E := Dir []]> f) !! output_dir E).
Proof.
  split.
  - apply is_Some_insert. rewrite lookup_insert_eq. eauto.
  - rewrite lookup_insert_eq. eauto.
Qed.

Ltac run_cleanup_full E x Hin Hout :=
  match goal with
  | |- context [cleanup_temp_files E (input_dir E) ?st] =>
      destruct (cleanup_pair_full E x st Hin Hout) as (s_end & Hend & Hreleased & Honce);
      cbv beta iota zeta delta [mbind M_bind mret M_ret] in Hend;
      rewrite Hend; cbv beta iota
  end.

Ltac close_cleaned s_end Hreleased Honce :=
  exists s_end; split; [reflexivity|]; split; [exact Hreleased|];
  intros Hu; destruct (Honce Hu) as [Hc1 Hc2]; unfold released_once;
  rewrite Hc1, Hc2; split; f_equal; count_releases.

(** ** The remaining ways through the handlers *)

Ltac enter_handler Hfile file :=
  rewrite Hfile;
  destruct (String.eqb_spec (filename file) "") as [|_]; [contradiction|];
  mexec.

Lemma separate_vocals_save_fails E request file s msg :
  files_get "audio" (files request) = Some file ->
  filename file <> "" ->
  save_outcome E = Some msg ->
  exists s',
    separate_vocals E request s =
      (Ret (jsonify [("error", JStr "Internal server error"); ("details", JStr msg)] 500), s')
    /\ cleaned E s s'.
Proof.
  intros Hfile Hname Hsave. unfold separate_vocals. enter_handler Hfile file.
  rewrite Hsave. cbv beta iota. cbn [str_exn fs trace emit with_fs].
  fold (input_dir E) (output_dir E).
  destruct (made_keys E (fs s)) as [Hin Hout].
  run_cleanup_full E
    (jsonify [("error", JStr "Internal server error"); ("details", JStr msg)] 500) Hin Hout.
  close_cleaned s_end Hreleased Honce.
Qed.

Lemma separate_vocals_launch_fails E request file s msg :
  files_get "audio" (files request) = Some file ->
  filename file <> "" ->
  save_outcome E = None ->
  run_outcome E = LaunchFailed msg ->
  exists s',
    separate_vocals E request s =
      (Ret (jsonify [("error", JStr "Internal server error"); ("details", JStr msg)] 500), s')
    /\ cleaned E s s'.
Proof.
  intros Hfile Hname Hsave Hrun. unfold separate_vocals. enter_handler Hfile file.
  rewrite Hsave. cbv beta iota. cbn [fs trace emit with_fs].
  fold (input_dir E) (output_dir E). fold (input_path E).
  rewrite resolve_insert. cbv beta iota.
  rewrite output_root_cmd. rewrite Hrun. cbv beta iota. cbn [str_exn fs trace emit with_fs].
  change (<[input_path E:=File (content_length file)]> _) with (staged_fs E file (fs s)).
  destruct (staged_keys E file (fs s)) as [Hin Hout].
  run_cleanup_full E
    (jsonify [("error", JStr "Internal server error"); ("details", JStr msg)] 500) Hin Hout.
  close_cleaned s_end Hreleased Honce.
Qed.

Lemma separate_vocals_timeout_cleaned E request file s msg :
  files_get "audio" (files request) = Some file ->
  filename file <> "" ->
  save_outcome E = None ->
  run_outcome E = TimedOut msg ->
  exists s',
    separate_vocals E request s =
      (Ret (jsonify [("error", JStr "Processing timeout - file too large")] 408), s')
    /\ cleaned E s s'.
Proof.
  intros Hfile Hname Hsave Hrun. unfold separate_vocals. enter_handler Hfile file.
  rewrite Hsave. cbv beta iota. cbn [fs trace emit with_fs].
  fold (input_dir E) (output_dir E). fold (input_path E).
  rewrite resolve_insert. cbv beta iota.
  rewrite output_root_cmd. rewrite Hrun. cbv beta iota. cbn [str_exn fs trace emit with_fs].
  change (<[output_dir E:=Dir (produced E)]> _) with (ran_fs E file (fs s)).
  destruct (ran_keys E file (fs s)) as [Hin Hout].
  run_cleanup_full E
    (jsonify [("error", JStr "Processing timeout - file too large")] 408) Hin Hout.
  close_cleaned s_end Hreleased Honce.
Qed.

Ltac finish_send_fails E msg Hthere Hsend Hfs Hrel :=
  match goal with
  | |- context [resolve (fs ?st) ?p] =>
      let Hex := fresh "Hex" in
      pose proof (Hthere st Hfs) as Hex; unfold exists_in in Hex;
      destruct (resolve (fs st) p) as [[?|?]|]; [ | |discriminate Hex];
      rewrite Hsend; cbv beta iota; cbn [str_exn fs trace emit with_fs];
      (match goal with
       | |- context [cleanup_temp_files E (input_dir E) ?st2] =>
           assert (Hin2 : is_Some (fs st2 !! input_dir E))
             by (cbn [fs emit with_fs]; rewrite Hfs; apply ran_keys);
           assert (Hout2 : is_Some (fs st2 !! output_dir E))
             by (cbn [fs emit with_fs]; rewrite Hfs; apply ran_keys);
           destruct (cleanup_pair_full E
                       (jsonify [("error", JStr "Internal server error");
                                 ("details", JStr msg)] 500) st2 Hin2 Hout2)
             as (s_end & Hend & Hreleased & Honce);
           cbv beta iota zeta delta [mbind M_bind mret M_ret] in Hend;
           rewrite Hend; cbv beta iota;
           exists s_end; split; [reflexivity|]; split; [exact Hreleased|];
           intros Hu; destruct (Honce Hu) as [Hc1 Hc2]; unfold released_once;
           rewrite Hc1, Hc2; split; f_equal; count_releases; rewrite Hrel; count_releases
       end)
  end.

Lemma separate_vocals_send_fails E request file s path out err msg :
  files_get "audio" (files request) = Some file ->
  filename file <> "" ->
  save_outcome E = None ->
  run_outcome E = Completed 0 out err ->
  located (walked E) = Some path ->
  send_outcome E = Some msg ->
  exists s',
    separate_vocals E request s =
      (Ret (jsonify [("error", JStr "Internal server error"); ("details", JStr msg)] 500), s')
    /\ cleaned E s s'.
Proof.
  intros Hfile Hname Hsave Hrun Hloc Hsend. unfold separate_vocals. enter_handler Hfile file.
  rewrite Hsave. cbv beta iota. cbn [fs trace emit with_fs].
  fold (input_dir E) (output_dir E). fold (input_path E).
  rewrite resolve_insert. cbv beta iota.
  rewrite output_root_cmd. rewrite Hrun. cbv beta iota.
  cbn [returncode fs trace emit with_fs negb Z.eqb].
  change (<[output_dir E:=Dir (produced E)]> _) with (ran_fs E file (fs s)).
  rewrite ran_fs_walk.
  match goal with |- context [scan_walk _ _ _ ?st] => set (s3 := st) end.
  destruct (locate_run (walked E) s3 (walked_roots E))
    as (s4 & all_files & Hscan & [Hfs4 Hrel4] & Hall).
  assert (Hfs : fs s4 = ran_fs E file (fs s)) by (rewrite Hfs4; reflexivity).
  assert (Hrel : forall d, releases d (trace s4) = releases d (trace s)).
  { intros d. rewrite Hrel4. subst s3. count_releases. }
  clearbody s3. clear Hfs4 Hrel4.
  rewrite Hscan. cbv beta iota. cbn [fst snd].
  assert (Hin : In path (all_paths (walked E))) by (apply located_in_all_paths; exact Hloc).
  assert (Htruthy : truthy (Some path) = true).
  { apply truthy_nonempty. eapply all_paths_nonempty; [apply walked_roots|exact Hin]. }
  assert (Hthere : forall s5, fs s5 = ran_fs E file (fs s) -> exists_in (fs s5) path = true).
  { intros s5 ->. apply ran_fs_walked_exists. exact Hin. }
  unfold located in Hloc. destruct (first_vocal (walked E)) as [p|] eqn:Hfirst.
  - injection Hloc as ->. rewrite Htruthy. cbn [negb]. cbv beta iota. rewrite Htruthy.
    rewrite (Hthere s4 Hfs). cbn [negb]. cbv beta iota.
    finish_send_fails E msg Hthere Hsend Hfs Hrel.
  - cbn [truthy negb]. cbv beta iota. rewrite (Hall eq_refl).
    match goal with |- context [fallback _ _ ?st] => set (s5 := st) end.
    destruct (fallback_run (all_paths (walked E)) None s5) as (s6 & Hfb & [Hfs6 Hrel6]).
    rewrite Hfb, Hloc. cbv beta iota. rewrite Htruthy.
    assert (Hfs' : fs s6 = ran_fs E file (fs s)) by (rewrite Hfs6; exact Hfs).
    assert (Hrel' : forall d, releases d (trace s6) = releases d (trace s)).
    { intros d. rewrite Hrel6. subst s5. count_releases. rewrite Hrel. lia. }
    clearbody s5. rewrite (Hthere s6 Hfs'). cbn [negb]. cbv beta iota.
    finish_send_fails E msg Hthere Hsend Hfs' Hrel'.
Qed.

Lemma analyze_vocals_raises E request file s msg :
  files_get "audio" (files request) = Some file ->
  filename file <> "" ->
  save_outcome E = Some msg \/
  (save_outcome E = None /\
   (run_outcome E = LaunchFailed msg \/ run_outcome E = TimedOut msg)) ->
  exists s',
    analyze_vocals E request s =
      (Ret (jsonify [("error", JStr "Analysis failed"); ("details", JStr msg)] 500), s')
    /\ cleaned E s s'.
Proof.
  intros Hfile Hname Hcase. unfold analyze_vocals. enter_handler Hfile file.
  destruct Hcase as [Hsave|[Hsave Hrun]].
  - rewrite Hsave. cbv beta iota. cbn [str_exn fs trace emit with_fs].
    fold (input_dir E) (output_dir E).
    destruct (made_keys E (fs s)) as [Hin Hout].
    run_cleanup_full E
      (jsonify [("error", JStr "Analysis failed"); ("details", JStr msg)] 500) Hin Hout.
    close_cleaned s_end Hreleased Honce.
  - rewrite Hsave. cbv beta iota. cbn [fs trace emit with_fs].
    fold (input_dir E) (output_dir E). fold (input_path E).
    rewrite resolve_insert. cbv beta iota.
    rewrite output_root_cmd.
    destruct Hrun as [Hrun|Hrun]; rewrite Hrun; cbv beta iota;
      cbn [str_exn fs trace emit with_fs].
    + change (<[input_path E:=File (content_length file)]> _) with (staged_fs E file (fs s)).
      destruct (staged_keys E file (fs s)) as [Hin Hout].
      run_cleanup_full E
        (jsonify [("error", JStr "Analysis failed"); ("details", JStr msg)] 500) Hin Hout.
      close_cleaned s_end Hreleased Honce.
    + change (<[output_dir E:=Dir (produced E)]> _) with (ran_fs E file (fs s)).
      destruct (ran_keys E file (fs s)) as [Hin Hout].
      run_cleanup_full E
        (jsonify [("error", JStr "Analysis failed"); ("details", JStr msg)] 500) Hin Hout.
      close_cleaned s_end Hreleased Honce.
Qed.

(** The loops of [analyze_vocals] keep the last file whose name contains
    "vocals.mp3". *)
Lemma pick_files_last root names found :
  (pick_files root names found).1
  = match last (filter (fun rn => PyStr.contains "vocals.mp3" rn.2 = true)
                  (map (pair root) names)) with
    | Some rn => Some (path_of rn)
    | None => found.1
    end.
Proof.
  revert found. induction names as [|n names IH]; intros found; [reflexivity|].
  cbn [pick_files map]. rewrite IH, filter_cons. cbn [snd].
  destruct (PyStr.contains "vocals.mp3" n) eqn:Hn.
  - rewrite decide_True by reflexivity. rewrite last_cons.
    destruct (last _); reflexivity.
  - rewrite decide_False by discriminate.
    destruct (last _); [reflexivity|].
    destruct (PyStr.contains "no_vocals.mp3" n); reflexivity.
Qed.

Lemma pick_walk_last triples found :
  (pick_walk triples found).1
  = match last_vocals_mp3 triples with
    | Some rn => Some (path_of rn)
    | None => found.1
    end.
Proof.
  unfold last_vocals_mp3. revert found.
  induction triples as [|[[root dirs] names] rest IH]; intros found; [reflexivity|].
  cbn [pick_walk walk_files]. rewrite IH, filter_app, last_app.
  destruct (last (filter _ (walk_files rest))); [reflexivity|].
  apply pick_files_last.
Qed.

Lemma analyze_vocals_summarised E request file s out err :
  files_get "audio" (files request) = Some file ->
  filename file <> "" ->
  save_outcome E = None ->
  run_outcome E = Completed 0 out err ->
  exists s' vocal_size,
    analyze_vocals E request s =
      (Ret (jsonify
              [("success", JBool true);
               ("model", JStr DEMUCS_MODEL);
               ("input_file", JStr (filename file));
               ("input_size_mb", JHundredths (round2_mb (content_length file)));
               ("vocal_size_mb", JHundredths (round2_mb vocal_size));
               ("accompaniment_size_mb", JHundredths 0);
               ("vocal_extracted", JBool (bool_decide (is_Some (last_vocals_mp3 (walked E)))));
               ("processing_time", JStr "completed")] 200), s')
    /\ (last_vocals_mp3 (walked E) = None -> vocal_size = 0)
    /\ cleaned E s s'.
Proof.
  intros Hfile Hname Hsave Hrun. unfold analyze_vocals. enter_handler Hfile file.
  rewrite Hsave. cbv beta iota. cbn [fs trace emit with_fs].
  fold (input_dir E) (output_dir E). fold (input_path E).
  rewrite resolve_insert. cbv beta iota.
  rewrite output_root_cmd. rewrite Hrun. cbv beta iota.
  cbn [returncode fs trace emit with_fs negb Z.eqb].
  change (<[output_dir E:=Dir (produced E)]> _) with (ran_fs E file (fs s)).
  rewrite ran_fs_walk.
  rewrite (pick_walk_snd (walked E) (None, None)). cbn [snd truthy]. cbv beta iota.
  destruct (ran_keys E file (fs s)) as [Hin Hout].
  pose proof (pick_walk_last (walked E) (None, None)) as Hlast. cbn [fst] in Hlast.
  destruct (last_vocals_mp3 (walked E)) as [rn|] eqn:Hrn; rewrite Hlast.
  - assert (Hp : In (path_of rn) (all_paths (walked E))).
    { rewrite all_paths_walk_files. apply in_map.
      unfold last_vocals_mp3 in Hrn. apply last_Some_elem_of in Hrn.
      apply list_elem_of_In. apply list_elem_of_filter in Hrn as [_ Hrn]. exact Hrn. }
    rewrite truthy_nonempty
      by (eapply all_paths_nonempty; [apply walked_roots|exact Hp]).
    cbv beta iota. cbn [fs trace emit with_fs].
    pose proof (ran_fs_walked_exists E file (fs s) _ Hp) as Hex. unfold exists_in in Hex.
    destruct (resolve (ran_fs E file (fs s)) (path_of rn)) as [[n|es]|];
      [ | |discriminate]; cbv beta iota.
    + run_cleanup_full E
        (jsonify
           [("success", JBool true);
            ("model", JStr DEMUCS_MODEL);
            ("input_file", JStr (filename file));
            ("input_size_mb", JHundredths (round2_mb (content_length file)));
            ("vocal_size_mb", JHundredths (round2_mb n));
            ("accompaniment_size_mb", JHundredths (round2_mb 0));
            ("vocal_extracted", JBool (bool_decide (is_Some (Some (path_of rn)))));
            ("processing_time", JStr "completed")] 200) Hin Hout.
      exists s_end, n. split; [reflexivity|]. split; [discriminate|].
      split; [exact Hreleased|].
      intros Hu; destruct (Honce Hu) as [Hc1 Hc2]; unfold released_once;
        rewrite Hc1, Hc2; split; f_equal; count_releases.
    + run_cleanup_full E
        (jsonify
           [("success", JBool true);
            ("model", JStr DEMUCS_MODEL);
            ("input_file", JStr (filename file));
            ("input_size_mb", JHundredths (round2_mb (content_length file)));
            ("vocal_size_mb", JHundredths (round2_mb 4096));
            ("accompaniment_size_mb", JHundredths (round2_mb 0));
            ("vocal_extracted", JBool (bool_decide (is_Some (Some (path_of rn)))));
            ("processing_time", JStr "completed")] 200) Hin Hout.
      exists s_end, 4096. split; [reflexivity|]. split; [discriminate|].
      split; [exact Hreleased|].
      intros Hu; destruct (Honce Hu) as [Hc1 Hc2]; unfold released_once;
        rewrite Hc1, Hc2; split; f_equal; count_releases.
  - cbn [truthy]. cbv beta iota.
    run_cleanup_full E
      (jsonify
         [("success", JBool true);
          ("model", JStr DEMUCS_MODEL);
          ("input_file", JStr (filename file));
          ("input_size_mb", JHundredths (round2_mb (content_length file)));
          ("vocal_size_mb", JHundredths (round2_mb 0));
          ("accompaniment_size_mb", JHundredths (round2_mb 0));
          ("vocal_extracted", JBool (bool_decide (is_Some (@None string))));
          ("processing_time", JStr "completed")] 200) Hin Hout.
    exists s_end, 0. split; [reflexivity|]. split; [reflexivity|].
    split; [exact Hreleased|].
    intros Hu; destruct (Honce Hu) as [Hc1 Hc2]; unfold released_once;
      rewrite Hc1, Hc2; split; f_equal; count_releases.
Qed.

Lemma endswith_app a b suffix :
  PyStr.endswith b suffix = true -> PyStr.endswith (a +:+ b) suffix = true.
Proof.
  intros H. induction a as [|c a IH]; [exact H|].
  change (String c a +:+ b) with (String c (a +:+ b)).
  cbn [PyStr.endswith]. rewrite IH. apply orb_true_r.
Qed.

(** A path ends the way its last component does. *)
Lemma endswith_join root n suffix :
  PyStr.endswith n suffix = true -> PyStr.endswith (PyStr.join root n) suffix = true.
Proof.
  intros H. unfold PyStr.join. destruct (PyStr.startswith n "/"); [exact H|].
  destruct (_ || _).
  - apply endswith_app. exact H.
  - apply endswith_app. apply (endswith_app "/"). exact H.
Qed.

Lemma located_is_audio triples p : located triples = Some p -> is_audio p = true.
Proof.
  unfold located. destruct (first_vocal triples) as [q|] eqn:Hfirst.
  - intros [= <-]. rewrite first_vocal_find in Hfirst.
    destruct (List.find _ (walk_files triples)) as [[root n]|] eqn:Hfind;
      [|discriminate Hfirst].
    injection Hfirst as <-. apply find_some in Hfind as [_ Hname].
    cbn [snd] in Hname. unfold is_vocal_name in Hname.
    apply andb_prop in Hname as [_ Hext]. unfold is_audio, path_of. cbn [fst snd].
    apply orb_prop in Hext as [Hext|Hext]; rewrite (endswith_join _ _ _ Hext);
      [reflexivity|apply orb_true_r].
  - intros Hfind. apply find_some in Hfind as [_ H]. exact H.
Qed.

(** Every way through [separate_vocals], with what is known of the state
    when the handler returns. *)
Lemma separate_vocals_outcome E request s :
  exists r s',
    separate_vocals E request s = (Ret r, s')
    /\ (status r, body r) = separate_reply (upload_name request) (separate_route E request)
    /\ match separate_route E request with
       | Turned_away _ => s' = s /\ call_on_close r = []
       | Crashed _ | Timed_out _ => cleaned E s s' /\ call_on_close r = []
       | Tool_failed _ | Not_found =>
           (exists file, fs s' = ran_fs E file (fs s))
           /\ (forall d, releases d (trace s') = releases d (trace s))
           /\ call_on_close r = []
       | Streamed path =>
           (exists file, fs s' = ran_fs E file (fs s))
           /\ (forall d, releases d (trace s') = releases d (trace s))
           /\ call_on_close r =
                [cleanup_temp_files E (input_dir E) ;; cleanup_temp_files E (output_dir E)]
           /\ located (walked E) = Some path
       end.
Proof.
  unfold separate_route, upload_name.
  destruct (files_get "audio" (files request)) as [file|] eqn:Hfile.
  2: { eexists _, s. unfold separate_vocals. rewrite Hfile. repeat split. }
  destruct (String.eqb_spec (filename file) "") as [Hempty|Hname].
  { eexists _, s. unfold separate_vocals. rewrite Hfile, Hempty. repeat split. }
  destruct (save_outcome E) as [msg|] eqn:Hsave.
  { destruct (separate_vocals_save_fails E request file s msg Hfile Hname Hsave)
      as (s' & Hrun & Hclean).
    eexists _, s'. split; [exact Hrun|]. split; [reflexivity|].
           split; [exact Hclean|reflexivity]. }
  destruct (run_outcome E) as [rc out err|msg|msg] eqn:Hproc.
  - destruct (Z.eqb_spec rc 0) as [->|Hrc].
    + destruct (located (walked E)) as [path|] eqn:Hloc.
      * destruct (send_outcome E) as [msg|] eqn:Hsend.
        -- destruct (separate_vocals_send_fails E request file s path out err msg
                       Hfile Hname Hsave Hproc Hloc Hsend) as (s' & Hrun & Hclean).
           eexists _, s'. split; [exact Hrun|]. split; [reflexivity|].
           split; [exact Hclean|reflexivity].
        -- destruct (separate_vocals_success E request file s path out err
                       Hfile Hname Hsave Hproc Hsend Hloc) as (s' & Hrun & Hfs & Hrel).
           eexists _, s'. split; [exact Hrun|]. split; [reflexivity|].
           repeat split; eauto.
      * destruct (separate_vocals_not_found E request file s out err
                    Hfile Hname Hsave Hproc Hloc) as (s' & Hrun & Hfs & Hrel).
        eexists _, s'. split; [exact Hrun|]. split; [reflexivity|].
           repeat split; eauto.
    + destruct (separate_vocals_tool_failure E request file s rc out err
                  Hfile Hname Hsave Hproc Hrc) as (s' & Hrun & Hfs & Hrel).
      eexists _, s'. split; [exact Hrun|]. split; [reflexivity|].
           repeat split; eauto.
  - destruct (separate_vocals_timeout_cleaned E request file s msg Hfile Hname Hsave Hproc)
      as (s' & Hrun & Hclean).
    eexists _, s'. split; [exact Hrun|]. split; [reflexivity|].
           split; [exact Hclean|reflexivity].
  - destruct (separate_vocals_launch_fails E request file s msg Hfile Hname Hsave Hproc)
      as (s' & Hrun & Hclean).
    eexists _, s'. split; [exact Hrun|]. split; [reflexivity|].
           split; [exact Hclean|reflexivity].
Qed.

(** Every way through [analyze_vocals]. *)
Lemma analyze_vocals_outcome E request s :
  exists r s' vocal_size,
    analyze_vocals E request s = (Ret r, s')
    /\ (status r, body r) = analyze_reply E request vocal_size (analyze_route E request)
    /\ call_on_close r = []
    /\ (last_vocals_mp3 (walked E) = None -> vocal_size = 0)
    /\ match analyze_route E request with
       | Refused _ => s' = s
       | Separation_failed => workspace_kept E s s'
       | Failed _ | Summarised => cleaned E s s'
       end.
Proof.
  unfold analyze_route, analyze_reply, upload_name.
  destruct (files_get "audio" (files request)) as [file|] eqn:Hfile.
  2: { eexists _, s, 0. unfold analyze_vocals. rewrite Hfile. repeat split. }
  destruct (String.eqb_spec (filename file) "") as [Hempty|Hname].
  { eexists _, s, 0. unfold analyze_vocals. rewrite Hfile, Hempty. repeat split. }
  destruct (save_outcome E) as [msg|] eqn:Hsave.
  { destruct (analyze_vocals_raises E request file s msg Hfile Hname (or_introl Hsave))
      as (s' & Hrun & Hclean).
    eexists _, s', 0. split; [exact Hrun|]. split; [reflexivity|].
    split; [reflexivity|]. split; [reflexivity|exact Hclean]. }
  destruct (run_outcome E) as [rc out err|msg|msg] eqn:Hproc.
  - destruct (Z.eqb_spec rc 0) as [->|Hrc].
    + destruct (analyze_vocals_summarised E request file s out err Hfile Hname Hsave Hproc)
        as (s' & vocal_size & Hrun & Hzero & Hclean).
      eexists _, s', vocal_size. split; [exact Hrun|]. split; [reflexivity|].
      split; [reflexivity|]. split; [exact Hzero|exact Hclean].
    + destruct (analyze_vocals_tool_failure E request file s rc out err
                  Hfile Hname Hsave Hproc Hrc) as (s' & Hrun & Hfs & Hrel).
      eexists _, s', 0. split; [exact Hrun|]. split; [reflexivity|].
      split; [reflexivity|]. split; [reflexivity|].
      eapply kept_of_ran_fs; eassumption.
  - destruct (analyze_vocals_raises E request file s msg Hfile Hname
                (or_intror (conj Hsave (or_intror Hproc)))) as (s' & Hrun & Hclean).
    eexists _, s', 0. split; [exact Hrun|]. split; [reflexivity|].
    split; [reflexivity|]. split; [reflexivity|exact Hclean].
  - destruct (analyze_vocals_raises E request file s msg Hfile Hname
                (or_intror (conj Hsave (or_introl Hproc)))) as (s' & Hrun & Hclean).
    eexists _, s', 0. split; [exact Hrun|]. split; [reflexivity|].
    split; [reflexivity|]. split; [reflexivity|exact Hclean].
Qed.

(** Closing the response of the success path runs the two cleanup calls. *)
Lemma serve_streamed E request s r s1 file :
  separate_vocals E request s = (Ret r, s1) ->
  call_on_close r =
    [cleanup_temp_files E (input_dir E) ;; cleanup_temp_files E (output_dir E)] ->
  fs s1 = ran_fs E file (fs s) ->
  (forall d, releases d (trace s1) = releases d (trace s)) ->
  exists s', serve (separate_vocals E) request s = (Ret r, s') /\ cleaned E s s'.
Proof.
  intros Hrun Hcb Hfs Hrel.
  assert (Hin : is_Some (fs s1 !! input_dir E)) by (rewrite Hfs; apply ran_keys).
  assert (Hout : is_Some (fs s1 !! output_dir E)) by (rewrite Hfs; apply ran_keys).
  destruct (cleanup_pair_full E tt s1 Hin Hout) as (s' & Hend & Hreleased & Honce).
  destruct (cleanup_total E (input_dir E) s1) as [s2 H2].
  destruct (cleanup_total E (output_dir E) s2) as [s3 H3].
  revert Hend. mexec. rewrite H2, H3. intros [= <-].
  exists s3. split.
  - unfold serve. mexec. rewrite Hrun, Hcb. cbn [run_callbacks]. mexec.
    rewrite H2, H3. reflexivity.
  - split; [exact Hreleased|]. intros Hu. destruct (Honce Hu) as [Hc1 Hc2].
    unfold released_once. rewrite Hc1, Hc2, !Hrel. split; reflexivity.
Qed.

(** ** Further properties of the handlers *)

(** X1: [separate_vocals] never lets an exception out.  Whatever the upload,
    the filesystem and the behaviour of [save], of the process and of
    [send_file], it returns a response, and status and body are the ones the
    route of the request prescribes. *)
Theorem separate_vocals_reply_table (E : Env) (request : Request) (s : Sys) :
  exists r s',
    separate_vocals E request s = (Ret r, s') /\
    (status r, body r) = separate_reply (upload_name request) (separate_route E request).
Proof.
  destruct (separate_vocals_outcome E request s) as (r & s' & Hrun & Hreply & _).
  exists r, s'. auto.
Qed.

(** X2: [analyze_vocals] never lets an exception out either; it answers 400,
    500 or 200 as its route prescribes, registers no callback, always reports
    accompaniment_size_mb 0, and reports vocal_extracted exactly when some
    file name of the output tree contains "vocals.mp3". *)
Theorem analyze_vocals_reply_table (E : Env) (request : Request) (s : Sys) :
  exists r s' vocal_size,
    analyze_vocals E request s = (Ret r, s') /\
    (status r, body r) = analyze_reply E request vocal_size (analyze_route E request) /\
    call_on_close r = [] /\
    (last_vocals_mp3 (walked E) = None -> vocal_size = 0).
Proof.
  destruct (analyze_vocals_outcome E request s)
    as (r & s' & vocal_size & Hrun & Hreply & Hcb & Hzero & _).
  exists r, s', vocal_size. auto.
Qed.

(** X3: what is left of the workspace once a request to [separate_vocals] is
    complete.  A request that is turned away leaves the state untouched; after
    a tool failure or when no artifact is found both directories are still
    there and no [rmtree] was called; on every other route the cleanup has
    run. *)
Theorem separate_vocals_workspace_fate (E : Env) (request : Request) (s : Sys) :
  exists r s',
    serve (separate_vocals E) request s = (Ret r, s') /\
    match separate_route E request with
    | Turned_away _ => s' = s
    | Tool_failed _ | Not_found => workspace_kept E s s'
    | Crashed _ | Timed_out _ | Streamed _ => cleaned E s s'
    end.
Proof.
  destruct (separate_vocals_outcome E request s) as (r & s1 & Hrun & _ & Hstate).
  destruct (separate_route E request) as [msg|msg|msg|err| |path].
  - destruct Hstate as [-> Hcb]. exists r, s. split; [|reflexivity].
    apply serve_plain; assumption.
  - destruct Hstate as [Hclean Hcb]. exists r, s1. split; [|exact Hclean].
    apply serve_plain; assumption.
  - destruct Hstate as [Hclean Hcb]. exists r, s1. split; [|exact Hclean].
    apply serve_plain; assumption.
  - destruct Hstate as ([file Hfs] & Hrel & Hcb). exists r, s1.
    split; [apply serve_plain; assumption|]. eapply kept_of_ran_fs; eassumption.
  - destruct Hstate as ([file Hfs] & Hrel & Hcb). exists r, s1.
    split; [apply serve_plain; assumption|]. eapply kept_of_ran_fs; eassumption.
  - destruct Hstate as ([file Hfs] & Hrel & Hcb & _).
    destruct (serve_streamed E request s r s1 file Hrun Hcb Hfs Hrel) as (s' & Hserve & Hclean).
    exists r, s'. auto.
Qed.

(** X4: what is left of the workspace when [analyze_vocals] returns.  A
    request that is refused leaves the state untouched; after a tool failure
    both directories are still there; on the summary route and on every
    exception the cleanup has run before the handler returns. *)
Theorem analyze_vocals_workspace_fate (E : Env) (request : Request) (s : Sys) :
  exists r s',
    analyze_vocals E request s = (Ret r, s') /\
    match analyze_route E request with
    | Refused _ => s' = s
    | Separation_failed => workspace_kept E s s'
    | Failed _ | Summarised => cleaned E s s'
    end.
Proof.
  destruct (analyze_vocals_outcome E request s)
    as (r & s' & vocal_size & Hrun & _ & _ & _ & Hstate).
  exists r, s'. auto.
Qed.

(** X5: whenever [separate_vocals] answers with a file, the status is 200,
    the file is sent as an audio/mpeg attachment named after the upload, its
    path ends in ".mp3" or ".wav", it is one of the files [os.walk] reported
    under the output directory, and it is still on disk when the handler
    returns. *)
Theorem streamed_file_is_audio
    (E : Env) (request : Request) (s s' : Sys) (r : Response)
    (path mimetype name : string) (attach : bool) :
  separate_vocals E request s = (Ret r, s') ->
  body r = FileBody path mimetype attach name ->
  status r = 200 /\
  mimetype = "audio/mpeg" /\
  attach = true /\
  name = "vocals_" +:+ upload_name request +:+ ".mp3" /\
  is_audio path = true /\
  In path (all_paths (walked E)) /\
  exists_in (fs s') path = true.
Proof.
  intros Hrun Hbody.
  destruct (separate_vocals_outcome E request s) as (r0 & s0 & Hrun0 & Hreply & Hstate).
  assert (r0 = r) as -> by congruence. assert (s0 = s') as -> by congruence.
  destruct (separate_route E request) as [msg|msg|msg|err| |p];
    cbn [separate_reply] in Hreply; injection Hreply as Hstatus Hb;
    rewrite Hbody in Hb; try discriminate Hb.
  injection Hb as -> -> -> ->.
  destruct Hstate as ([file Hfs] & _ & _ & Hloc).
  pose proof (located_in_all_paths _ _ Hloc) as Hin.
  repeat split; try assumption.
  - eapply located_is_audio. exact Hloc.
  - rewrite Hfs. apply ran_fs_walked_exists. exact Hin.
Qed.

Lemma streamed_file_is_audio_witness :
  exists r s',
    separate_vocals (env_of (Completed 0 "" "") one_stem) upload sys0 = (Ret r, s') /\
    body r = FileBody "/tmp/tmpb2/track/vocals.mp3" "audio/mpeg" true "vocals_song.wav.mp3" /\
    (status r = 200 /\
     "audio/mpeg" = "audio/mpeg" /\
     true = true /\
     "vocals_song.wav.mp3" = "vocals_" +:+ upload_name upload +:+ ".mp3" /\
     is_audio "/tmp/tmpb2/track/vocals.mp3" = true /\
     In "/tmp/tmpb2/track/vocals.mp3"
        (all_paths (walked (env_of (Completed 0 "" "") one_stem))) /\
     exists_in (fs s') "/tmp/tmpb2/track/vocals.mp3" = true).
Proof.
  eexists _, _. split; [vm_compute; reflexivity|]. split; [reflexivity|].
  eapply (streamed_file_is_audio (env_of (Completed 0 "" "") one_stem) upload sys0);
    [vm_compute; reflexivity|reflexivity].
Defined.

(** X6: the loops of [analyze_vocals] settle on the last file of the walk
    whose name contains "vocals.mp3", and never on an accompaniment file:
    "no_vocals.mp3" contains "vocals.mp3", so the second branch is dead. *)
Theorem analyze_keeps_last_vocals_mp3 (triples : list (string * list string * list string)) :
  pick_walk triples (None, None) = (path_of <$> last_vocals_mp3 triples, None).
Proof.
  pose proof (pick_walk_last triples (None, None)) as H1.
  pose proof (pick_walk_snd triples (None, None)) as H2.
  destruct (pick_walk triples (None, None)) as [v a]. cbn [fst snd] in *.
  subst. destruct (last_vocals_mp3 triples); reflexivity.
Qed.

(** X7: [cleanup_temp_files] removes nothing outside the directory it is
    given: a tracked directory that is neither that directory nor below it is
    still there afterwards, whether [rmtree] fails or not. *)
Theorem cleanup_spares_other_roots (E : Env) (folder_path p : string) (s : Sys) :
  is_Some (fs s !! p) ->
  under folder_path p = false ->
  exists s', cleanup_temp_files E folder_path s = (Ret tt, s') /\ exists_in (fs s') p = true.
Proof.
  intros Hp Hu.
  destruct (cleanup_keeps_key E folder_path s p Hp Hu) as (s' & Hrun & Hkey).
  exists s'. split; [exact Hrun|]. apply exists_key. exact Hkey.
Qed.

Lemma cleanup_spares_other_roots_witness :
  exists s',
    cleanup_temp_files (env_of (Completed 0 "" "") []) "/tmp/tmpa1"
      {| fs := <["/tmp/tmpa1" := Dir []]> (<["/tmp/tmpb2" := Dir []]> ∅); trace := [] |}
      = (Ret tt, s')
    /\ exists_in (fs s') "/tmp/tmpb2" = true.
Proof.
  apply (cleanup_spares_other_roots (env_of (Completed 0 "" "") []) "/tmp/tmpa1" "/tmp/tmpb2").
  - cbn [fs]. vm_compute. eauto.
  - reflexivity.
Defined.

(** X8: the megabyte figures of the summary are within half a hundredth of
    the size they report: [round2_mb size] hundredths of a megabyte differ
    from [size] bytes by at most 5242.88 bytes. *)
Theorem round2_mb_accurate (size : Z) :
  2 * Z.abs (round2_mb size * (1024 * 1024) - size * 100) <= 1024 * 1024.
Proof.
  unfold round2_mb.
  pose proof (Z.div_mod (size * 100) (1024 * 1024) ltac:(lia)) as Hdm.
  pose proof (Z.mod_pos_bound (size * 100) (1024 * 1024) ltac:(lia)) as Hb.
  set (q := size * 100 / (1024 * 1024)) in *.
  set (r := (size * 100) mod (1024 * 1024)) in *.
  destruct (Z.ltb_spec (2 * r) (1024 * 1024)); [lia|].
  destruct (Z.ltb_spec (1024 * 1024) (2 * r)); [lia|].
  destruct (Z.even q); lia.
Qed.

(** X9: the megabyte figures are monotone: a larger file is never reported
    smaller. *)
Theorem round2_mb_monotone (a b : Z) : a <= b -> round2_mb a <= round2_mb b.
Proof.
  intros Hab. unfold round2_mb.
  pose proof (Z.div_mod (a * 100) (1024 * 1024) ltac:(lia)) as Ha.
  pose proof (Z.mod_pos_bound (a * 100) (1024 * 1024) ltac:(lia)) as Hra.
  pose proof (Z.div_mod (b * 100) (1024 * 1024) ltac:(lia)) as Hb.
  pose proof (Z.mod_pos_bound (b * 100) (1024 * 1024) ltac:(lia)) as Hrb.
  set (qa := a * 100 / (1024 * 1024)) in *.
  set (ra := (a * 100) mod (1024 * 1024)) in *.
  set (qb := b * 100 / (1024 * 1024)) in *.
  set (rb := (b * 100) mod (1024 * 1024)) in *.
  clearbody qa ra qb rb.
  destruct (Z.eq_dec qa qb) as [->|Hne].
  - destruct (Z.ltb_spec (2 * ra) (1024 * 1024)), (Z.ltb_spec (1024 * 1024) (2 * ra)),
      (Z.ltb_spec (2 * rb) (1024 * 1024)), (Z.ltb_spec (1024 * 1024) (2 * rb)),
      (Z.even qb); lia.
  - assert (qa < qb) by nia.
    destruct (Z.ltb_spec (2 * ra) (1024 * 1024)), (Z.ltb_spec (1024 * 1024) (2 * ra)),
      (Z.ltb_spec (2 * rb) (1024 * 1024)), (Z.ltb_spec (1024 * 1024) (2 * rb)),
      (Z.even qa), (Z.even qb); lia.
Qed.

Lemma round2_mb_monotone_witness : 2202010 <= 3565158 /\ round2_mb 2202010 <= round2_mb 3565158.
Proof. split; [lia|apply (round2_mb_monotone 2202010 3565158); lia]. Defined.
